(** * Lot occupancy aggregation and occupancy prediction

    A shallow embedding of the lot service ([LotService] in
    [services/lotService.ts]), of the lot routes ([routes/lots.ts]) and of
    the two client slices that consume them, of the smart-parking system.

    Conventions of the embedding.
    - A JavaScript [number] is read in two ways.  The service is first
      embedded over the exact rationals ([Q], equality [==]): this reading
      carries the properties of counts, lengths, instants, strings and
      control flow, and the bounds that hold whatever the rounding.  The
      module [Binary64] embeds the same functions over IEEE-754 doubles
      (the primitive floats of the kernel, which compute as JavaScript
      does): every statement about the value of a rate, of a predicted
      occupancy, of an available count, of a trend or of a confidence is
      made there.
    - [Math.random()], the wall clock [new Date()] and the time zone of the
      process are inputs: a record [Env] carries the instant of the request,
      the offset of local time and the sequence of values that the
      successive calls of [Math.random()] return.
    - The two DynamoDB tables are the lists of their items.
    - The client runs in a time zone of its own, whose offset may change
      (daylight saving time): [Date.prototype.setMinutes] works on local
      time. *)

From Stdlib Require Import ZArith QArith Qround Qminmax Qabs.
From Stdlib Require Import List String Ascii Bool Lia Lqa.
From Stdlib Require Import DecimalString DecimalPos.
From Stdlib Require Import PrimFloat FloatOps SpecFloat.
Import ListNotations.

#[local] Set Warnings "-inexact-float".

Local Open Scope Q_scope.

(** ** JavaScript primitives used by the service *)

Module JS.

(** [Math.round]: the nearest integer, a tie going towards +infinity. *)
Definition Math_round (x : Q) : Z := Qfloor (x + (1 # 2)).

Definition Math_min (x y : Q) : Q := Qmin x y.
Definition Math_max (x y : Q) : Q := Qmax x y.

(** The comparison operators [>] and [<] on numbers. *)
Definition gt (x y : Q) : bool :=
  match x ?= y with Gt => true | _ => false end.
Definition lt (x y : Q) : bool :=
  match x ?= y with Lt => true | _ => false end.

(** The result of a call that can throw. *)
Inductive Result (A : Type) : Type :=
| Returned (a : A)
| Thrown (e : string).
Arguments Returned {A} a.
Arguments Thrown {A} e.

(** A [Date] is an instant in milliseconds since the epoch.  The ISO-8601
    string that [toISOString] prints denotes that instant in UTC with
    millisecond precision, and [new Date(iso)] reads the same instant
    back: the string is kept as the instant it denotes. *)
Record Date : Type := mkDate { getTime : Z }.

Inductive ISOString : Type := ISO (instant : Z).

Definition toISOString (d : Date) : ISOString := ISO (getTime d).
Definition parseISO (s : ISOString) : Date :=
  match s with ISO t => mkDate t end.

(** Local time is UTC shifted by [tz] minutes (a fixed offset). *)
Definition localMs (tz : Z) (d : Date) : Z := (getTime d + tz * 60000)%Z.
Definition getHours (tz : Z) (d : Date) : Z :=
  ((localMs tz d / 3600000) mod 24)%Z.
Definition getMinutes (tz : Z) (d : Date) : Z :=
  ((localMs tz d / 60000) mod 60)%Z.
(** 1 January 1970 was a Thursday (day 4). *)
Definition getDay (tz : Z) (d : Date) : Z :=
  ((localMs tz d / 86400000 + 4) mod 7)%Z.

Definition getUTCMinutes (d : Date) : Z := ((getTime d / 60000) mod 60)%Z.
Definition getUTCSeconds (d : Date) : Z := ((getTime d / 1000) mod 60)%Z.
Definition getUTCMilliseconds (d : Date) : Z := (getTime d mod 1000)%Z.

(** The time zone of a process whose offset may change: [offsetAt t] is
    the offset of local time at the instant [t] and [offsetOfLocal t] the
    offset with which the local time [t] is read back as an instant
    ([LocalTZA(t, true)] and [LocalTZA(t, false)] of ECMA-262), in
    milliseconds.  A local time that occurs twice or not at all around a
    change of offset is read with the offset before the change. *)
Record TimeZone : Type := mkZone {
  offsetAt : Z -> Z;
  offsetOfLocal : Z -> Z
}.

Definition LocalTime (zone : TimeZone) (t : Z) : Z := (t + offsetAt zone t)%Z.
Definition UTC (zone : TimeZone) (t : Z) : Z := (t - offsetOfLocal zone t)%Z.

Definition Day (t : Z) : Z := (t / 86400000)%Z.
Definition HourFromTime (t : Z) : Z := ((t / 3600000) mod 24)%Z.
Definition MinFromTime (t : Z) : Z := ((t / 60000) mod 60)%Z.
Definition SecFromTime (t : Z) : Z := ((t / 1000) mod 60)%Z.
Definition msFromTime (t : Z) : Z := (t mod 1000)%Z.

Definition MakeTime (hour min sec ms : Z) : Z :=
  (hour * 3600000 + min * 60000 + sec * 1000 + ms)%Z.
Definition MakeDate (day time : Z) : Z := (day * 86400000 + time)%Z.

(** [String(n)] for an integer [n]. *)
Definition toString (n : Z) : string := NilZero.string_of_int (Z.to_int n).

(** [s.padStart(2, '0')]. *)
Definition padStart2 (s : string) : string :=
  match String.length s with
  | O => "00"
  | S O => String "0" s
  | _ => s
  end%string.

End JS.

Import JS.

(** ** Domain types ([types/index.ts]) *)

Inductive SpaceStatus : Type := available | occupied | reserved | offline.

Definition SpaceStatus_eqb (a b : SpaceStatus) : bool :=
  match a, b with
  | available, available | occupied, occupied
  | reserved, reserved | offline, offline => true
  | _, _ => false
  end.

Record ParkingSpace : Type := mkSpace {
  nodeId : string;
  space_lotId : string;
  status : SpaceStatus;
  spaceNumber : option string
}.

Record ParkingLot : Type := mkLot {
  lotId : string;
  name : string;
  totalSpaces : Q;
  availableSpaces : Q;
  occupiedSpaces : Q;
  offlineSpaces : Q;
  occupancyRate : Q;
  lastUpdate : ISOString
}.

Inductive Trend : Type := INCREASING | DECREASING | STABLE.

Record PredictionDataPoint : Type := mkPoint {
  timestamp : ISOString;
  predictedOccupancy : Q;
  predictedAvailable : Q;
  confidence : Q;
  trend : Trend
}.

Record Factors : Type := mkFactors {
  dayOfWeek : string;
  timeOfDay : string;
  specialEvents : list string;
  weather : string
}.

Record OccupancyPrediction : Type := mkPrediction {
  pred_lotId : string;
  currentOccupancy : Q;
  currentAvailable : Q;
  predictions : list PredictionDataPoint;
  pred_confidence : Q;
  generatedAt : ISOString;
  factors : Factors;
  recommendation : string
}.

(** ** The environment of a request and the store *)

Record Env : Type := mkEnv {
  now : Date;            (* what [new Date()] returns during the request *)
  tz : Z;                (* minutes that local time is ahead of UTC *)
  random : nat -> Q      (* the value of the k-th call of [Math.random()] *)
}.

Record Store : Type := mkStore {
  parkingLotTable : list ParkingLot;
  parkingSpaceTable : list ParkingSpace
}.

(** ** LotService *)

(** The service over the exact rationals.  The same functions over doubles
    are those of the module [Binary64] below, on which the values of the
    rates, occupancies, trends and confidences are stated. *)

(** [spaces.filter(s => s.status === st).length] *)
Definition countStatus (st : SpaceStatus) (spaces : list ParkingSpace) : nat :=
  List.length (filter (fun s => SpaceStatus_eqb (status s) st) spaces).

(** The object literal that [getLotById] (lines 119-135) and the callback of
    [getAllLots] (lines 76-92) both build from a lot item and its spaces. *)
Definition aggregate (e : Env) (lot : ParkingLot) (spaces : list ParkingSpace)
  : ParkingLot :=
  let availableSpaces := inject_Z (Z.of_nat (countStatus available spaces)) in
  let occupiedSpaces := inject_Z (Z.of_nat (countStatus occupied spaces)) in
  let offlineSpaces := inject_Z (Z.of_nat (countStatus offline spaces)) in
  (* spaces.length || lot.totalSpaces *)
  let totalSpaces :=
    match List.length spaces with
    | O => totalSpaces lot
    | n => inject_Z (Z.of_nat n)
    end in
  {| lotId := lotId lot;
     name := name lot;
     totalSpaces := totalSpaces;
     availableSpaces := availableSpaces;
     occupiedSpaces := occupiedSpaces;
     offlineSpaces := offlineSpaces;
     occupancyRate :=
       if gt totalSpaces 0
       then inject_Z (Math_round ((occupiedSpaces / totalSpaces) * 100 * 100)) / 100
       else 0;
     lastUpdate := toISOString (now e) |}.

(** The query on the index [lotId-lastUpdated-index]: the spaces of a lot. *)
Definition getSpacesByLotId (db : Store) (id : string) : list ParkingSpace :=
  filter (fun s => String.eqb (space_lotId s) id) (parkingSpaceTable db).

(** The [GetCommand] on the lot table. *)
Definition getItem (db : Store) (id : string) : option ParkingLot :=
  find (fun l => String.eqb (lotId l) id) (parkingLotTable db).

Definition getLotById (e : Env) (db : Store) (id : string) : option ParkingLot :=
  match getItem db id with
  | None => None
  | Some lot => Some (aggregate e lot (getSpacesByLotId db id))
  end.

(** [MOCK_LOTS], the data served when DynamoDB is not available. *)
Definition MOCK_LOTS : list ParkingLot :=
  [ mkLot "lot-1" "Lot A - Student Center" 150 42 103 5 (687 # 10) (ISO 0);
    mkLot "lot-2" "Lot B - Engineering Building" 200 15 180 5 90 (ISO 0);
    mkLot "lot-3" "Lot C - Library" 100 67 30 3 30 (ISO 0) ].

(** [{ ...lot, lastUpdate: new Date().toISOString() }] *)
Definition touch (e : Env) (lot : ParkingLot) : ParkingLot :=
  {| lotId := lotId lot;
     name := name lot;
     totalSpaces := totalSpaces lot;
     availableSpaces := availableSpaces lot;
     occupiedSpaces := occupiedSpaces lot;
     offlineSpaces := offlineSpaces lot;
     occupancyRate := occupancyRate lot;
     lastUpdate := toISOString (now e) |}.

(** [getAllLots]: the flag [useMockData] of the service is threaded through
    the call, and [scan] is the store when DynamoDB answers and [Thrown]
    when a command of the [try] block throws. *)
Definition getAllLots (e : Env) (useMockData : bool) (scan : Result Store)
  : bool * list ParkingLot :=
  if useMockData then (true, map (touch e) MOCK_LOTS)
  else
    match scan with
    | Returned db =>
        (false,
         map (fun lot => aggregate e lot (getSpacesByLotId db (lotId lot)))
             (parkingLotTable db))
    | Thrown _ => (true, map (touch e) MOCK_LOTS)
    end.

(** *** getPrediction *)

(** The time-of-day pattern of lines 172-179. *)
Definition basePrediction (rate : Q) (hour : Z) : Q :=
  if ((9 <=? hour) && (hour <=? 11))%Z then Math_min 95 (rate + 15)
  else if ((14 <=? hour) && (hour <=? 16))%Z then Math_min 95 (rate + 20)
  else if ((17 <=? hour) && (hour <=? 19))%Z then Math_max 20 (rate - 15)
  else rate.

(** [(Math.random() - 0.5) * 10] for a draw [r]. *)
Definition variance (r : Q) : Q := (r - (5 # 10)) * 10.

(** [new Date(now.getTime() + i * 60 * 60 * 1000)] *)
Definition predictionTime (e : Env) (i : Z) : Date :=
  mkDate (getTime (now e) + i * 60 * 60 * 1000)%Z.

(** The local [predictedOccupancy] of line 183, before it is rounded:
    iteration [i] consumes the draw number [k]. *)
Definition rawOccupancy (e : Env) (lot : ParkingLot) (i : Z) (k : nat) : Q :=
  let hour := getHours (tz e) (predictionTime e i) in
  Math_max 0 (Math_min 100 (basePrediction (occupancyRate lot) hour
                            + variance (random e k))).

(** Lines 186-191: the trend against the last point pushed so far. *)
Definition trendOf (current : Q)
  (predictions : list PredictionDataPoint) : Trend :=
  match predictions with
  | [] => STABLE
  | _ :: _ =>
      let lastPrediction :=
        predictedOccupancy
          (nth (List.length predictions - 1) predictions
               (mkPoint (ISO 0) 0 0 0 STABLE)) in
      if gt current (lastPrediction + 3) then INCREASING
      else if lt current (lastPrediction - 3) then DECREASING
      else STABLE
  end.

(** The body of the loop (lines 168-199): the point pushed by iteration [i]
    when [predictions] holds the points of the earlier iterations. *)
Definition predictionPoint (e : Env) (lot : ParkingLot) (i : Z) (k : nat)
  (predictions : list PredictionDataPoint) : PredictionDataPoint :=
  let predictedOccupancy := rawOccupancy e lot i k in
  let predictedAvailable :=
    Math_round (totalSpaces lot * (1 - predictedOccupancy / 100)) in
  {| timestamp := toISOString (predictionTime e i);
     predictedOccupancy := inject_Z (Math_round (predictedOccupancy * 10)) / 10;
     predictedAvailable := inject_Z predictedAvailable;
     confidence := (85 # 100) - inject_Z i * (5 # 100);
     trend := trendOf predictedOccupancy predictions |}.

(** [for (let i = 1; i <= hours; i++)]: [n] iterations remain, the next one
    has counter [i] and draws the [k]-th random number. *)
Fixpoint forLoop (e : Env) (lot : ParkingLot) (n : nat) (i : Z) (k : nat)
  (predictions : list PredictionDataPoint) : list PredictionDataPoint :=
  match n with
  | O => predictions
  | S n' =>
      forLoop e lot n' (i + 1)%Z (S k)
              (predictions ++ [predictionPoint e lot i k predictions])
  end.

Definition dayNames : list string :=
  ["Sunday"; "Monday"; "Tuesday"; "Wednesday"; "Thursday"; "Friday";
   "Saturday"]%string.

(** The template literal of line 230. *)
Definition timeStr (hours minutes : Z) : string :=
  (toString (if (hours >? 12)%Z then (hours - 12)%Z else hours)
   ++ ":" ++ padStart2 (toString minutes)
   ++ " " ++ (if (hours >=? 12)%Z then "PM" else "AM"))%string.

(** [predictions.reduce((max, p) => p.predictedOccupancy >
    max.predictedOccupancy ? p : max, predictions[0])] *)
Definition peakOf (predictions : list PredictionDataPoint)
  (init : PredictionDataPoint) : PredictionDataPoint :=
  fold_left
    (fun max p =>
       if gt (predictedOccupancy p) (predictedOccupancy max) then p else max)
    predictions init.

(** [generateRecommendation]: on an empty array [predictions[0]] is
    [undefined], [reduce] returns it and reading its field throws. *)
Definition generateRecommendation (e : Env)
  (predictions : list PredictionDataPoint) (lot : ParkingLot)
  : Result string :=
  match predictions with
  | [] => Thrown "TypeError"
  | p0 :: _ =>
      let peakPrediction := peakOf predictions p0 in
      if gt (predictedOccupancy peakPrediction) 85 then
        let peakTime := parseISO (timestamp peakPrediction) in
        let hours := getHours (tz e) peakTime in
        let minutes := getMinutes (tz e) peakTime in
        Returned ("High demand expected around " ++ timeStr hours minutes
                  ++ ". Consider arriving earlier for better availability.")%string
      else if lt (availableSpaces lot) 10 then
        Returned "Limited spaces available now. Consider alternative lots if possible."%string
      else
        Returned "Good availability expected. No concerns at this time."%string
  end.

(** [getPrediction(lotId, hours)]: [null] is [Returned None]. *)
Definition getPrediction (e : Env) (db : Store) (id : string) (hours : Z)
  : Result (option OccupancyPrediction) :=
  match getLotById e db id with
  | None => Returned None
  | Some lot =>
      let predictions := forLoop e lot (Z.to_nat hours) 1%Z O [] in
      let timeOfDay :=
        (if (getHours (tz e) (now e) <? 12)%Z then "Morning"
         else if (getHours (tz e) (now e) <? 17)%Z then "Afternoon"
         else "Evening")%string in
      match generateRecommendation e predictions lot with
      | Thrown err => Thrown err
      | Returned text =>
          Returned (Some
            {| pred_lotId := id;
               currentOccupancy := occupancyRate lot;
               currentAvailable := availableSpaces lot;
               predictions := predictions;
               pred_confidence := 85 # 100;
               generatedAt := toISOString (now e);
               factors :=
                 {| dayOfWeek :=
                      nth (Z.to_nat (getDay (tz e) (now e))) dayNames EmptyString;
                    timeOfDay := timeOfDay;
                    specialEvents := [];
                    weather := "Clear" |};
               recommendation := text |})
      end
  end.

(** ** The service in binary64 arithmetic *)

(** A key attribute of a DynamoDB item is a string of 1 to 2048 bytes: a
    command whose key is empty or longer is rejected by the store. *)
Definition validKey (id : string) : bool :=
  negb (String.eqb id EmptyString) && (String.length id <=? 2048)%nat.

Module Binary64.

Local Open Scope float_scope.

(** The double nearest to an integer: the integer itself up to 2^53. *)
Definition ofZ (z : Z) : float :=
  SF2Prim (binary_normalize prec emax z 0 false).

(** The rational that a finite double denotes. *)
Definition toQ (x : float) : option Q :=
  match Prim2SF x with
  | S754_zero _ => Some 0%Q
  | S754_finite s m e =>
      let v := (inject_Z (Z.pos m) * Qpower 2 e)%Q in
      Some (if s then (- v)%Q else v)
  | _ => None
  end.

(** [Math.round]: the integer nearest to [x], a tie going towards
    +infinity; a result of zero keeps the sign of [x]; an infinity, a NaN
    and a zero are returned as they are.  A finite [x] is [m * 2^e] up to
    its sign and the integer is computed exactly. *)
Definition Math_round (x : float) : float :=
  match Prim2SF x with
  | S754_finite s m e =>
      if (0 <=? e)%Z then x
      else
        let M := if s then Z.neg m else Z.pos m in
        let n := ((2 * M + 2 ^ (- e)) / 2 ^ (- e + 1))%Z in
        if (n =? 0)%Z then (if s then neg_zero else zero) else ofZ n
  | _ => x
  end.

(** [Math.min] and [Math.max]: NaN when an argument is NaN, and the zero
    of negative sign is below the zero of positive sign. *)
Definition Math_min (x y : float) : float :=
  if is_nan x || is_nan y then nan
  else if x <? y then x
  else if y <? x then y
  else if get_sign x then x else y.

Definition Math_max (x y : float) : float :=
  if is_nan x || is_nan y then nan
  else if x <? y then y
  else if y <? x then x
  else if get_sign x then y else x.

(** The comparison operators [>] and [<] on numbers. *)
Definition gt (x y : float) : bool := y <? x.
Definition lt (x y : float) : bool := x <? y.

Record ParkingLot : Type := mkLot {
  lotId : string;
  name : string;
  totalSpaces : float;
  availableSpaces : float;
  occupiedSpaces : float;
  offlineSpaces : float;
  occupancyRate : float;
  lastUpdate : ISOString
}.

Record PredictionDataPoint : Type := mkPoint {
  timestamp : ISOString;
  predictedOccupancy : float;
  predictedAvailable : float;
  confidence : float;
  trend : Trend
}.

Record OccupancyPrediction : Type := mkPrediction {
  pred_lotId : string;
  currentOccupancy : float;
  currentAvailable : float;
  predictions : list PredictionDataPoint;
  pred_confidence : float;
  generatedAt : ISOString;
  factors : Factors;
  recommendation : string
}.

Record Env : Type := mkEnv {
  now : Date;            (* what [new Date()] returns during the request *)
  tz : Z;                (* minutes that local time is ahead of UTC *)
  random : nat -> float  (* the value of the k-th call of [Math.random()] *)
}.

Record Store : Type := mkStore {
  parkingLotTable : list ParkingLot;
  parkingSpaceTable : list ParkingSpace
}.

(** The object literal of [getLotById] (lines 119-135) and of the callback
    of [getAllLots] (lines 76-92); [.length] is an integer. *)
Definition aggregate (e : Env) (lot : ParkingLot) (spaces : list ParkingSpace)
  : ParkingLot :=
  let availableSpaces := ofZ (Z.of_nat (countStatus available spaces)) in
  let occupiedSpaces := ofZ (Z.of_nat (countStatus occupied spaces)) in
  let offlineSpaces := ofZ (Z.of_nat (countStatus offline spaces)) in
  (* spaces.length || lot.totalSpaces *)
  let totalSpaces :=
    match List.length spaces with
    | O => totalSpaces lot
    | n => ofZ (Z.of_nat n)
    end in
  {| lotId := lotId lot;
     name := name lot;
     totalSpaces := totalSpaces;
     availableSpaces := availableSpaces;
     occupiedSpaces := occupiedSpaces;
     offlineSpaces := offlineSpaces;
     occupancyRate :=
       if gt totalSpaces 0
       then Math_round ((occupiedSpaces / totalSpaces) * 100 * 100) / 100
       else 0;
     lastUpdate := toISOString (now e) |}.

Definition getSpacesByLotId (db : Store) (id : string) : list ParkingSpace :=
  filter (fun s => String.eqb (space_lotId s) id) (parkingSpaceTable db).

(** The [GetCommand] on the lot table: it throws on a key that the store
    rejects. *)
Definition getItem (db : Store) (id : string) : Result (option ParkingLot) :=
  if validKey id
  then Returned (find (fun l => String.eqb (lotId l) id) (parkingLotTable db))
  else Thrown "ValidationException".

Definition getLotById (e : Env) (db : Store) (id : string)
  : Result (option ParkingLot) :=
  match getItem db id with
  | Thrown err => Thrown err
  | Returned None => Returned None
  | Returned (Some lot) =>
      Returned (Some (aggregate e lot (getSpacesByLotId db id)))
  end.

(** The time-of-day pattern of lines 172-179. *)
Definition basePrediction (rate : float) (hour : Z) : float :=
  if ((9 <=? hour) && (hour <=? 11))%Z then Math_min 95 (rate + 15)
  else if ((14 <=? hour) && (hour <=? 16))%Z then Math_min 95 (rate + 20)
  else if ((17 <=? hour) && (hour <=? 19))%Z then Math_max 20 (rate - 15)
  else rate.

(** [(Math.random() - 0.5) * 10] for a draw [r]. *)
Definition variance (r : float) : float := (r - 0.5) * 10.

(** [new Date(now.getTime() + i * 60 * 60 * 1000)] *)
Definition predictionTime (e : Env) (i : Z) : Date :=
  mkDate (getTime (now e) + i * 60 * 60 * 1000)%Z.

(** The local [predictedOccupancy] of line 183, before it is rounded:
    iteration [i] consumes the draw number [k]. *)
Definition rawOccupancy (e : Env) (lot : ParkingLot) (i : Z) (k : nat)
  : float :=
  let hour := getHours (tz e) (predictionTime e i) in
  Math_max 0 (Math_min 100 (basePrediction (occupancyRate lot) hour
                            + variance (random e k))).

(** Lines 186-191: the trend against the last point pushed so far. *)
Definition trendOf (current : float)
  (predictions : list PredictionDataPoint) : Trend :=
  match predictions with
  | [] => STABLE
  | _ :: _ =>
      let lastPrediction :=
        predictedOccupancy
          (nth (List.length predictions - 1) predictions
               (mkPoint (ISO 0) 0 0 0 STABLE)) in
      if gt current (lastPrediction + 3) then INCREASING
      else if lt current (lastPrediction - 3) then DECREASING
      else STABLE
  end.

(** The body of the loop (lines 168-199): the point pushed by iteration [i]
    when [predictions] holds the points of the earlier iterations. *)
Definition predictionPoint (e : Env) (lot : ParkingLot) (i : Z) (k : nat)
  (predictions : list PredictionDataPoint) : PredictionDataPoint :=
  let predictedOccupancy := rawOccupancy e lot i k in
  let predictedAvailable :=
    Math_round (totalSpaces lot * (1 - predictedOccupancy / 100)) in
  {| timestamp := toISOString (predictionTime e i);
     predictedOccupancy := Math_round (predictedOccupancy * 10) / 10;
     predictedAvailable := predictedAvailable;
     confidence := 0.85 - (ofZ i * 0.05);
     trend := trendOf predictedOccupancy predictions |}.

(** [for (let i = 1; i <= hours; i++)]: [n] iterations remain, the next one
    has counter [i] and draws the [k]-th random number. *)
Fixpoint forLoop (e : Env) (lot : ParkingLot) (n : nat) (i : Z) (k : nat)
  (predictions : list PredictionDataPoint) : list PredictionDataPoint :=
  match n with
  | O => predictions
  | S n' =>
      forLoop e lot n' (i + 1)%Z (S k)
              (predictions ++ [predictionPoint e lot i k predictions])
  end.

Definition peakOf (predictions : list PredictionDataPoint)
  (init : PredictionDataPoint) : PredictionDataPoint :=
  fold_left
    (fun max p =>
       if gt (predictedOccupancy p) (predictedOccupancy max) then p else max)
    predictions init.

Definition generateRecommendation (e : Env)
  (predictions : list PredictionDataPoint) (lot : ParkingLot)
  : Result string :=
  match predictions with
  | [] => Thrown "TypeError"
  | p0 :: _ =>
      let peakPrediction := peakOf predictions p0 in
      if gt (predictedOccupancy peakPrediction) 85 then
        let peakTime := parseISO (timestamp peakPrediction) in
        let hours := getHours (tz e) peakTime in
        let minutes := getMinutes (tz e) peakTime in
        Returned ("High demand expected around " ++ timeStr hours minutes
                  ++ ". Consider arriving earlier for better availability.")%string
      else if lt (availableSpaces lot) 10 then
        Returned "Limited spaces available now. Consider alternative lots if possible."%string
      else
        Returned "Good availability expected. No concerns at this time."%string
  end.

(** [getPrediction(lotId, hours)]: [null] is [Returned None]. *)
Definition getPrediction (e : Env) (db : Store) (id : string) (hours : Z)
  : Result (option OccupancyPrediction) :=
  match getLotById e db id with
  | Thrown err => Thrown err
  | Returned None => Returned None
  | Returned (Some lot) =>
      let predictions := forLoop e lot (Z.to_nat hours) 1%Z O [] in
      let timeOfDay :=
        (if (getHours (tz e) (now e) <? 12)%Z then "Morning"
         else if (getHours (tz e) (now e) <? 17)%Z then "Afternoon"
         else "Evening")%string in
      match generateRecommendation e predictions lot with
      | Thrown err => Thrown err
      | Returned text =>
          Returned (Some
            {| pred_lotId := id;
               currentOccupancy := occupancyRate lot;
               currentAvailable := availableSpaces lot;
               predictions := predictions;
               pred_confidence := 0.85;
               generatedAt := toISOString (now e);
               factors :=
                 {| dayOfWeek :=
                      nth (Z.to_nat (getDay (tz e) (now e))) dayNames EmptyString;
                    timeOfDay := timeOfDay;
                    specialEvents := [];
                    weather := "Clear" |};
               recommendation := text |})
      end
  end.

(** The series that the loop of [getPrediction] builds in [n] iterations. *)
Definition series (e : Env) (lot : ParkingLot) (n : nat)
  : list PredictionDataPoint :=
  forLoop e lot n 1%Z O [].

(** The [i]-th point of a prediction, counted from 1. *)
Definition point (pred : OccupancyPrediction) (i : Z)
  : option PredictionDataPoint :=
  nth_error (predictions pred) (Z.to_nat (i - 1)).

End Binary64.

(** ** The prediction route ([GET /lots/:lotId/prediction]) *)

Module Route.

(** White space that [parseInt] skips (the ASCII part of it). *)
Definition isWhiteSpace (c : ascii) : bool :=
  let n := nat_of_ascii c in
  ((n =? 9) || (n =? 10) || (n =? 11) || (n =? 12) || (n =? 13)
   || (n =? 32))%nat.

Fixpoint trimStart (s : string) : string :=
  match s with
  | String c rest => if isWhiteSpace c then trimStart rest else s
  | EmptyString => s
  end.

Definition digitValue (radix : Z) (c : ascii) : option Z :=
  let n := Z.of_nat (nat_of_ascii c) in
  let v :=
    if ((48 <=? n) && (n <=? 57))%Z then Some (n - 48)%Z
    else if ((97 <=? n) && (n <=? 122))%Z then Some (n - 87)%Z
    else if ((65 <=? n) && (n <=? 90))%Z then Some (n - 55)%Z
    else None in
  match v with
  | Some d => if (d <? radix)%Z then Some d else None
  | None => None
  end.

(** The value of the longest prefix of digits; [acc] is [None] until a
    digit has been read. *)
Fixpoint parseDigits (radix : Z) (s : string) (acc : option Z) : option Z :=
  match s with
  | String c rest =>
      match digitValue radix c with
      | Some d =>
          parseDigits radix rest
            (Some (radix * match acc with Some a => a | None => 0 end + d)%Z)
      | None => acc
      end
  | EmptyString => acc
  end.

(** The digits of [parseInt] after the sign: a prefix [0x] or [0X]
    selects the radix 16, the radix is 10 otherwise. *)
Definition parseMagnitude (s : string) : option Z :=
  let '(radix, digits) :=
    match s with
    | String "0" (String "x" rest) => (16%Z, rest)
    | String "0" (String "X" rest) => (16%Z, rest)
    | _ => (10%Z, s)
    end in
  parseDigits radix digits None.

(** [parseInt(s)] without a radix; [None] is [NaN]. *)
Definition parseInt (s : string) : option Z :=
  let trimmed := trimStart s in
  match trimmed with
  | String "-" rest => option_map Z.opp (parseMagnitude rest)
  | String "+" rest => parseMagnitude rest
  | _ => parseMagnitude trimmed
  end.

(** [parseInt(req.query.hours as string) || 3]: an absent parameter is
    [undefined], which [parseInt] reads as [NaN]; [NaN] and [0] are
    falsy. *)
Definition hoursOf (query : option string) : Z :=
  match match query with Some s => parseInt s | None => None end with
  | Some 0%Z | None => 3%Z
  | Some n => n
  end.

Record Response : Type := mkResponse {
  statusCode : Z;
  success : bool;
  errorCode : option string;
  data : option OccupancyPrediction
}.

(** A call of the engine made while a request is served. *)
Inductive EngineCall : Type :=
| GetPrediction (id : string) (hours : Z).

(** The handler: the calls it makes to the engine and its response. *)
Definition predictionHandler (e : Env) (db : Store) (id : string)
  (query : option string) : list EngineCall * Response :=
  let hours := hoursOf query in
  if ((hours <? 1) || (hours >? 12))%Z then
    ([], mkResponse 400 false (Some "VALIDATION_ERROR"%string) None)
  else
    ([GetPrediction id hours],
     match getPrediction e db id hours with
     | Thrown _ => mkResponse 500 false (Some "INTERNAL_ERROR"%string) None
     | Returned None => mkResponse 404 false (Some "LOT_NOT_FOUND"%string) None
     | Returned (Some prediction) => mkResponse 200 true None (Some prediction)
     end).

End Route.

(** ** The lot routes ([GET /lots], [GET /lots/:lotId] and
    [GET /lots/:lotId/spaces]) *)

Module LotRoutes.

(** The status and the body of a response. *)
Record ApiResponse (T : Type) : Type := mkApiResponse {
  res_status : Z;
  res_success : bool;
  res_error : option string;
  res_data : option T
}.
Arguments mkApiResponse {T} _ _ _ _.
Arguments res_status {T} _.
Arguments res_success {T} _.
Arguments res_error {T} _.
Arguments res_data {T} _.

(** [res.json(response)] with [success: true]. *)
Definition ok {T : Type} (d : T) : ApiResponse T :=
  mkApiResponse 200 true None (Some d).

(** [res.status(code).json(response)] with [success: false]. *)
Definition failure {T : Type} (code : Z) (err : string) : ApiResponse T :=
  mkApiResponse code false (Some err) None.

(** [GET /lots]: [getAllLots] catches the failure of the store itself, so
    the [catch] of the handler is not reached. *)
Definition lotsHandler (e : Env) (useMockData : bool) (scan : Result Store)
  : bool * ApiResponse (list ParkingLot) :=
  let r := getAllLots e useMockData scan in
  (fst r, ok (snd r)).

(** [GET /lots/:lotId]: [scan] is [Thrown] when the command of
    [getLotById] throws, which the [catch] of the handler answers. *)
Definition lotHandler (e : Env) (scan : Result Store) (id : string)
  : ApiResponse ParkingLot :=
  match scan with
  | Thrown _ => failure 500 "INTERNAL_ERROR"
  | Returned db =>
      match getLotById e db id with
      | None => failure 404 "LOT_NOT_FOUND"
      | Some lot => ok lot
      end
  end.

(** The string of a status, as the table stores it. *)
Definition statusName (st : SpaceStatus) : string :=
  match st with
  | available => "available"
  | occupied => "occupied"
  | reserved => "reserved"
  | offline => "offline"
  end.

(** A query parameter is used when it is present and not empty. *)
Definition truthy (q : option string) : bool :=
  match q with
  | Some (String _ _) => true
  | _ => false
  end.

Definition queryString (q : option string) : string :=
  match q with
  | Some s => s
  | None => EmptyString
  end.

(** [s.spaceNumber?.startsWith(zone)]: a space without a number is dropped. *)
Definition inZone (zone : string) (s : ParkingSpace) : bool :=
  match spaceNumber s with
  | Some number => String.prefix zone number
  | None => false
  end.

Record SpacesData : Type := mkSpacesData {
  data_lotId : string;
  spaces : list ParkingSpace;
  totalCount : nat;
  availableCount : nat;
  occupiedCount : nat
}.

(** [GET /lots/:lotId/spaces?status=&zone=] *)
Definition spacesHandler (e : Env) (scan : Result Store) (id : string)
  (statusQuery zoneQuery : option string) : ApiResponse SpacesData :=
  match scan with
  | Thrown _ => failure 500 "INTERNAL_ERROR"
  | Returned db =>
      match getLotById e db id with
      | None => failure 404 "LOT_NOT_FOUND"
      | Some _ =>
          let spaces := getSpacesByLotId db id in
          let spaces :=
            if truthy statusQuery
            then filter (fun s => String.eqb (statusName (status s))
                                             (queryString statusQuery)) spaces
            else spaces in
          let spaces :=
            if truthy zoneQuery
            then filter (inZone (queryString zoneQuery)) spaces
            else spaces in
          ok {| data_lotId := id;
                spaces := spaces;
                totalCount := List.length spaces;
                availableCount := countStatus available spaces;
                occupiedCount := countStatus occupied spaces |}
      end
  end.

End LotRoutes.

(** ** The client state ([redux/slices/predictionsSlice.ts] and
    [redux/slices/lotsSlice.ts]) *)

Module Frontend.

(** A JavaScript object used as a map from lot identifiers: the slices only
    read, write and delete single keys. *)
Definition Dict (V : Type) : Type := string -> option V.

Definition emptyDict {V : Type} : Dict V := fun _ => None.

(** [dict[key] = value] *)
Definition setKey {V : Type} (key : string) (value : V) (dict : Dict V)
  : Dict V :=
  fun k => if String.eqb k key then Some value else dict k.

(** [delete dict[key]] *)
Definition deleteKey {V : Type} (key : string) (dict : Dict V) : Dict V :=
  fun k => if String.eqb k key then None else dict k.

(** *** predictionsSlice *)

Record PredictionsState : Type := mkPredictionsState {
  byLotId : Dict OccupancyPrediction;
  pred_loading : bool;
  pred_error : option string;
  cacheExpiry : Dict ISOString
}.

Definition predictionsInitialState : PredictionsState :=
  mkPredictionsState emptyDict false None emptyDict.

(** [Date.prototype.getMinutes] and [Date.prototype.setMinutes] in the
    time zone of the client: both work on local time, and [setMinutes]
    accepts a number of minutes beyond 59. *)
Definition getMinutes (zone : TimeZone) (d : Date) : Z :=
  MinFromTime (LocalTime zone (getTime d)).

Definition setMinutes (zone : TimeZone) (d : Date) (min : Z) : Date :=
  let t := LocalTime zone (getTime d) in
  let date :=
    MakeDate (Day t)
      (MakeTime (HourFromTime t) min (SecFromTime t) (msFromTime t)) in
  mkDate (UTC zone date).

(** [const expiry = new Date(); expiry.setMinutes(expiry.getMinutes() + 5);
    expiry.toISOString()] when [new Date()] is [d]. *)
Definition expiryAfter (zone : TimeZone) (d : Date) : ISOString :=
  let expiry := d in
  let expiry := setMinutes zone expiry (getMinutes zone expiry + 5) in
  toISOString expiry.

(** The reducer [updatePrediction], which is also the case
    [refreshPrediction.fulfilled]. *)
Definition updatePrediction (zone : TimeZone) (d : Date)
  (prediction : OccupancyPrediction) (state : PredictionsState)
  : PredictionsState :=
  {| byLotId := setKey (pred_lotId prediction) prediction (byLotId state);
     pred_loading := pred_loading state;
     pred_error := pred_error state;
     cacheExpiry :=
       setKey (pred_lotId prediction) (expiryAfter zone d) (cacheExpiry state) |}.

Definition clearPrediction (id : string) (state : PredictionsState)
  : PredictionsState :=
  {| byLotId := deleteKey id (byLotId state);
     pred_loading := pred_loading state;
     pred_error := pred_error state;
     cacheExpiry := deleteKey id (cacheExpiry state) |}.

Definition clearAllPredictions (state : PredictionsState) : PredictionsState :=
  {| byLotId := emptyDict;
     pred_loading := pred_loading state;
     pred_error := pred_error state;
     cacheExpiry := emptyDict |}.

(** The cases [fetchPrediction.pending] and
    [fetchMultiplePredictions.pending]. *)
Definition fetchPending (state : PredictionsState) : PredictionsState :=
  {| byLotId := byLotId state;
     pred_loading := true;
     pred_error := None;
     cacheExpiry := cacheExpiry state |}.

(** The case [fetchPrediction.fulfilled]. *)
Definition fetchFulfilled (zone : TimeZone) (d : Date)
  (prediction : OccupancyPrediction) (state : PredictionsState)
  : PredictionsState :=
  {| byLotId := setKey (pred_lotId prediction) prediction (byLotId state);
     pred_loading := false;
     pred_error := pred_error state;
     cacheExpiry :=
       setKey (pred_lotId prediction) (expiryAfter zone d) (cacheExpiry state) |}.

(** The cases [fetchPrediction.rejected] and
    [fetchMultiplePredictions.rejected]. *)
Definition fetchRejected (message : string) (state : PredictionsState)
  : PredictionsState :=
  {| byLotId := byLotId state;
     pred_loading := false;
     pred_error := Some message;
     cacheExpiry := cacheExpiry state |}.

(** The case [fetchMultiplePredictions.fulfilled]: one expiry for all. *)
Definition fetchMultipleFulfilled (zone : TimeZone) (d : Date)
  (payload : list OccupancyPrediction) (state : PredictionsState)
  : PredictionsState :=
  fold_left
    (fun st prediction =>
       {| byLotId := setKey (pred_lotId prediction) prediction (byLotId st);
          pred_loading := pred_loading st;
          pred_error := pred_error st;
          cacheExpiry :=
            setKey (pred_lotId prediction) (expiryAfter zone d)
                   (cacheExpiry st) |})
    payload
    {| byLotId := byLotId state;
       pred_loading := false;
       pred_error := pred_error state;
       cacheExpiry := cacheExpiry state |}.


(** [expiry ? new Date(expiry) > new Date() : false] at the instant [d]. *)
Definition selectIsPredictionCached (state : PredictionsState) (id : string)
  (d : Date) : bool :=
  match cacheExpiry state id with
  | Some expiry => (getTime (parseISO expiry) >? getTime d)%Z
  | None => false
  end.

(** What the thunk [fetchPrediction] resolves to: the payload of the
    fulfilled action ([undefined] is [None]) or the rejection message. *)
Inductive FetchAction : Type :=
| Fulfilled (payload : option OccupancyPrediction)
| Rejected (message : string).

(** The payload creator of [fetchPrediction]: [api] is
    [apiService.getPrediction(lotId)] followed by [.data], [Thrown] with the
    message of the error when the request fails.  The result carries the
    identifiers the API was called with. *)
Definition fetchPrediction (api : string -> Result OccupancyPrediction)
  (state : PredictionsState) (d : Date) (id : string)
  : list string * FetchAction :=
  if selectIsPredictionCached state id d
  then ([], Fulfilled (byLotId state id))
  else
    match api id with
    | Returned prediction => ([id], Fulfilled (Some prediction))
    | Thrown message => ([id], Rejected message)
    end.

(** [dispatch(fetchPrediction(lotId))]: the pending case, the payload
    creator at the instant [d] and the reducer of its action at the instant
    [d'].  The fulfilled case reads [prediction.lotId] and throws on an
    [undefined] payload. *)
Definition dispatchFetchPrediction (zone : TimeZone)
  (api : string -> Result OccupancyPrediction)
  (state : PredictionsState) (d d' : Date) (id : string)
  : list string * Result PredictionsState :=
  let pending := fetchPending state in
  let '(calls, action) := fetchPrediction api pending d id in
  (calls,
   match action with
   | Fulfilled (Some prediction) =>
       Returned (fetchFulfilled zone d' prediction pending)
   | Fulfilled None => Thrown "TypeError"
   | Rejected message => Returned (fetchRejected message pending)
   end).



(** *** lotsSlice *)

Record LotsState : Type := mkLotsState {
  byId : Dict ParkingLot;
  allIds : list string;
  lots_loading : bool;
  lots_error : option string;
  lastFetch : option ISOString
}.

Definition lotsInitialState : LotsState :=
  mkLotsState emptyDict [] false None None.

(** [allIds.includes(id)] *)
Definition includes (ids : list string) (id : string) : bool :=
  existsb (String.eqb id) ids.

(** [state.byId[lot.lotId] = lot; if (!state.allIds.includes(lot.lotId))
    state.allIds.push(lot.lotId)]: the reducer [updateLot], the case
    [fetchLotDetails.fulfilled] and the body of the loop of
    [fetchLots.fulfilled]. *)
Definition updateLot (lot : ParkingLot) (state : LotsState) : LotsState :=
  {| byId := setKey (lotId lot) lot (byId state);
     allIds :=
       if includes (allIds state) (lotId lot) then allIds state
       else allIds state ++ [lotId lot];
     lots_loading := lots_loading state;
     lots_error := lots_error state;
     lastFetch := lastFetch state |}.

(** The case [fetchLots.fulfilled]. *)
Definition fetchLotsFulfilled (d : Date) (payload : list ParkingLot)
  (state : LotsState) : LotsState :=
  fold_left (fun st lot => updateLot lot st) payload
    {| byId := byId state;
       allIds := allIds state;
       lots_loading := false;
       lots_error := lots_error state;
       lastFetch := Some (toISOString d) |}.

(** The case [refreshLots.fulfilled]: the loop writes [byId] only. *)
Definition refreshLotsFulfilled (d : Date) (payload : list ParkingLot)
  (state : LotsState) : LotsState :=
  fold_left
    (fun st lot =>
       {| byId := setKey (lotId lot) lot (byId st);
          allIds := allIds st;
          lots_loading := lots_loading st;
          lots_error := lots_error st;
          lastFetch := lastFetch st |})
    payload
    {| byId := byId state;
       allIds := allIds state;
       lots_loading := lots_loading state;
       lots_error := lots_error state;
       lastFetch := Some (toISOString d) |}.

(** [state.lots.allIds.map((id) => state.lots.byId[id])]; [None] is an
    [undefined] element. *)
Definition selectAllLots (state : LotsState) : list (option ParkingLot) :=
  map (byId state) (allIds state).

Definition selectLotById (state : LotsState) (id : string)
  : option ParkingLot :=
  byId state id.

End Frontend.

(** ** Specification-side notions *)


Definition SpaceStatus_eq_dec (a b : SpaceStatus) : {a = b} + {a <> b}.
Proof. decide equality. Defined.

(** The number of spaces of a list that have a given status. *)
Definition numberWithStatus (st : SpaceStatus) (spaces : list ParkingSpace)
  : nat :=
  count_occ SpaceStatus_eq_dec (map status spaces) st.

(** What the counts of an aggregated lot [agg] satisfy, for the item [lot]
    of the table and the space records [spaces] of the lot. *)
Definition balanced (spaces : list ParkingSpace) (lot agg : ParkingLot)
  : Prop :=
  availableSpaces agg + occupiedSpaces agg + offlineSpaces agg
    + inject_Z (Z.of_nat (numberWithStatus reserved spaces))
    == inject_Z (Z.of_nat (List.length spaces))
  /\ (spaces <> [] ->
      totalSpaces agg == inject_Z (Z.of_nat (List.length spaces))
      /\ availableSpaces agg + occupiedSpaces agg + offlineSpaces agg
         <= totalSpaces agg)
  /\ (spaces = [] ->
      totalSpaces agg == totalSpaces lot
      /\ availableSpaces agg + occupiedSpaces agg + offlineSpaces agg == 0).

(** The integer that a sequence of decimal digits denotes after the digits
    of [acc]. *)
Fixpoint decimalValue (u : Decimal.uint) (acc : Z) : Z :=
  match u with
  | Decimal.Nil => acc
  | Decimal.D0 u => decimalValue u (10 * acc + 0)
  | Decimal.D1 u => decimalValue u (10 * acc + 1)
  | Decimal.D2 u => decimalValue u (10 * acc + 2)
  | Decimal.D3 u => decimalValue u (10 * acc + 3)
  | Decimal.D4 u => decimalValue u (10 * acc + 4)
  | Decimal.D5 u => decimalValue u (10 * acc + 5)
  | Decimal.D6 u => decimalValue u (10 * acc + 6)
  | Decimal.D7 u => decimalValue u (10 * acc + 7)
  | Decimal.D8 u => decimalValue u (10 * acc + 8)
  | Decimal.D9 u => decimalValue u (10 * acc + 9)
  end%Z.

(** The text after a number ends the number: it is empty or starts with a
    character that is not a decimal digit. *)
Definition endsNumber (rest : string) : bool :=
  match rest with
  | EmptyString => true
  | String c _ =>
      match Route.digitValue 10 c with
      | Some _ => false
      | None => true
      end
  end.

(** The text starts with the letter x in either case. *)
Definition startsWithX (rest : string) : bool :=
  match rest with
  | String "x" _ => true
  | String "X" _ => true
  | _ => false
  end.

(** The two maps of the predictions slice have the same keys. *)
Definition sameKeys (state : Frontend.PredictionsState) : Prop :=
  forall id, Frontend.byLotId state id = None
             <-> Frontend.cacheExpiry state id = None.

(** Every prediction of the slice is stored under its own lot identifier. *)
Definition ownKeys (state : Frontend.PredictionsState) : Prop :=
  forall id prediction,
    Frontend.byLotId state id = Some prediction -> pred_lotId prediction = id.

(** The list of identifiers of the lots slice has no duplicate and every
    identifier of it has a lot. *)
Definition listed (state : Frontend.LotsState) : Prop :=
  NoDup (Frontend.allIds state)
  /\ forall id, In id (Frontend.allIds state) ->
                Frontend.byId state id <> None.

(** The instant at which the local clock of [zone] reads five minutes more
    than it reads at [d]. *)
Definition fiveMinutesOn (zone : TimeZone) (d : Date) : Z :=
  UTC zone (LocalTime zone (getTime d) + 5 * 60000)%Z.






(** [x] clamped to the interval from [lo] to [hi], in binary64. *)
Definition clamp (lo hi x : float) : float :=
  Binary64.Math_max lo (Binary64.Math_min hi x).

(** [x] rounded to one decimal as the service does it, in binary64. *)
Definition roundTo1 (x : float) : float :=
  (Binary64.Math_round (x * 10) / 10)%float.

(** The time-of-day bias in the words of the specification: [base] is the
    current rate biased for the local hour [hour]. *)
Definition biased (rate : float) (hour : Z) (base : float) : Prop :=
  ((9 <= hour <= 11)%Z /\ base = Binary64.Math_min 95 (rate + 15)%float)
  \/ ((14 <= hour <= 16)%Z /\ base = Binary64.Math_min 95 (rate + 20)%float)
  \/ ((17 <= hour <= 19)%Z /\ base = Binary64.Math_max 20 (rate - 15)%float)
  \/ (~ (9 <= hour <= 11)%Z /\ ~ (14 <= hour <= 16)%Z
      /\ ~ (17 <= hour <= 19)%Z /\ base = rate).

(** The occupancy that iteration [i] of the loop predicts before it is
    rounded: the clamp to [0,100] of the biased rate [base] plus the
    variance [(r - 0.5) * 10] of the draw [r] of the iteration. *)
Definition unrounded (e : Binary64.Env) (i : Z) (base : float) : float :=
  let r := Binary64.random e (Z.to_nat (i - 1)) in
  let v := ((r - 0.5) * 10)%float in
  clamp 0 100 (base + v)%float.

(** The series that the loop of [getPrediction] builds in [n] iterations. *)
Definition series (e : Env) (lot : ParkingLot) (n : nat)
  : list PredictionDataPoint :=
  forLoop e lot n 1%Z O [].

(** The [i]-th point of a prediction, counted from 1. *)
Definition point (pred : OccupancyPrediction) (i : Z)
  : option PredictionDataPoint :=
  nth_error (predictions pred) (Z.to_nat (i - 1)).

(** [peak] is the first point of [l] that attains the maximal predicted
    occupancy. *)
Definition isFirstPeak (l : list PredictionDataPoint)
  (peak : PredictionDataPoint) : Prop :=
  exists j, nth_error l j = Some peak
    /\ (forall k q, nth_error l k = Some q ->
          predictedOccupancy q <= predictedOccupancy peak)
    /\ (forall k q, (k < j)%nat -> nth_error l k = Some q ->
          predictedOccupancy q < predictedOccupancy peak).

(** The time of day [hours]:[minutes] on a 12-hour clock, [h:mm AM/PM]:
    the hours run 12, 1, ..., 11 in each half of the day. *)
Definition clock12 (hours minutes : Z) : string :=
  (toString (if (hours mod 12 =? 0)%Z then 12%Z else (hours mod 12)%Z)
   ++ ":" ++ padStart2 (toString minutes)
   ++ " " ++ (if (hours <? 12)%Z then "AM" else "PM"))%string.

(** The timestamp is on a whole-hour boundary. *)
Definition topOfHour (s : ISOString) : Prop :=
  getUTCMinutes (parseISO s) = 0%Z /\ getUTCSeconds (parseISO s) = 0%Z.

(** ** Sample data *)

Definition spaces_of (id : string) (st : SpaceStatus) (n : nat)
  : list ParkingSpace :=
  repeat (mkSpace "node"%string id st None) n.

(** The third lot of [MOCK_LOTS] as an item of the table. *)
Definition lot3 : ParkingLot :=
  mkLot "lot-3" "Lot C - Library" 100 67 30 3 30 (ISO 0).

(** Midnight UTC of 1 January 1970, local time UTC, every draw 0.5. *)
Definition env0 : Env := mkEnv (mkDate 0) 0 (fun _ => 1 # 2).

(** One occupied and one reserved space in lot 3. *)
Definition db_reserved : Store :=
  mkStore [lot3]
          (spaces_of "lot-3" occupied 1 ++ spaces_of "lot-3" reserved 1).

(** The first lot of [MOCK_LOTS] as an item of the table, with 45 occupied
    and 105 available spaces: the read gives it the rate 30. *)
Definition lot1 : ParkingLot :=
  mkLot "lot-1" "Lot A - Student Center" 150 42 103 5 (687 # 10) (ISO 0).

Definition db_lot1 : Store :=
  mkStore [lot1]
          (spaces_of "lot-1" occupied 45 ++ spaces_of "lot-1" available 105).

(** Two spaces in lot 3, one of them occupied: the rate is 50. *)
Definition db_half : Store :=
  mkStore [lot3]
          (spaces_of "lot-3" occupied 1 ++ spaces_of "lot-3" available 1).

(** Nine of ten spaces of lot 3 occupied: the rate is 90. *)
Definition db_busy : Store :=
  mkStore [lot3]
          (spaces_of "lot-3" occupied 9 ++ spaces_of "lot-3" available 1).

(** A request at 00:00:00 UTC whose first draw is 0.866. *)
Definition env_866 : Env := mkEnv (mkDate 0) 0 (fun _ => 866 # 1000).

(** A request at 00:00:00 UTC whose draws are 0.5, 0.804, 0.5, ... *)
Definition env_804 : Env :=
  mkEnv (mkDate 0) 0 (fun k => match k with 1%nat => 804 # 1000 | _ => 1 # 2 end).

(** A request at 12:34:56 UTC. *)
Definition env_1234 : Env :=
  mkEnv (mkDate ((12 * 60 + 34) * 60000 + 56000)) 0 (fun _ => 1 # 2).

(** A request at 23:30:00 UTC, local time UTC. *)
Definition env_2330 : Env :=
  mkEnv (mkDate ((23 * 60 + 30) * 60000)) 0 (fun _ => 1 # 2).

(** A table whose spaces carry a number: two spaces of zone A, one of them
    occupied, one reserved space of zone B, and a space without a number. *)
Definition db_zones : Store :=
  mkStore [lot3]
          [ mkSpace "n1" "lot-3" available (Some "A-01"%string);
            mkSpace "n2" "lot-3" occupied (Some "A-02"%string);
            mkSpace "n3" "lot-3" reserved (Some "B-01"%string);
            mkSpace "n4" "lot-3" available None;
            mkSpace "n5" "lot-9" available (Some "A-07"%string) ].


(** The integers [lo], [lo + 1], ..., [lo + n - 1]. *)
Definition rangeZ (lo : Z) (n : nat) : list Z :=
  map (fun k => (lo + Z.of_nat k)%Z) (seq 0 n).


(** The confidence of the point [i] is within [10^-15] of
    [0.85 - 0.05 * i]. *)
Definition confidenceNear (i : Z) (x : float) : bool :=
  match Binary64.toQ x with
  | Some c =>
      Qle_bool (Qabs (c - ((85 # 100) - (5 # 100) * inject_Z i)))
               (1 # 1000000000000000)
  | None => false
  end.

(** The double [x] is within [10^-15] of 0.05. *)
Definition stepNear (x : float) : bool :=
  match Binary64.toQ x with
  | Some c => Qle_bool (Qabs (c - (5 # 100))) (1 # 1000000000000000)
  | None => false
  end.

(** The expression of the confidence of the point [i]. *)
Definition confidenceOf (i : Z) : float :=
  (0.85 - Binary64.ofZ i * 0.05)%float.

(** The first lot of [MOCK_LOTS] as an item of a table of the binary64
    model, and a table with [n] occupied and [m] available spaces of it. *)
Definition lot1_double : Binary64.ParkingLot :=
  Binary64.mkLot "lot-1" "Lot A - Student Center"
    150%float 42%float 103%float 5%float 68.7%float (ISO 0).

Definition db_double (n m : nat) : Binary64.Store :=
  Binary64.mkStore [lot1_double]
    (spaces_of "lot-1" occupied n ++ spaces_of "lot-1" available m).

(** A request at 00:00:00 UTC, local time UTC, whose draws are [draw 0],
    [draw 1], ... *)
Definition env_double (draw : nat -> float) : Binary64.Env :=
  Binary64.mkEnv (mkDate 0) 0 draw.

(** A request at 16:00:00 UTC, local time UTC, whose draws are all 0. *)
Definition env_evening : Binary64.Env :=
  Binary64.mkEnv (mkDate (16 * 3600000)) 0 (fun _ => 0%float).

(** What the confidences of the points [i] and [i + 1] are checked for. *)
Definition confidenceCheck (i : Z) : bool :=
  confidenceNear i (confidenceOf i)
  && (confidenceOf (i + 1) <? confidenceOf i)%float
  && stepNear (confidenceOf i - confidenceOf (i + 1))%float
  && negb (confidenceOf i - confidenceOf (i + 1) =? 0.05)%float
  && (if (i <=? 16)%Z then (0 <? confidenceOf i)%float
      else (confidenceOf i <? 0)%float).

(** The draws 0.5, 0.804, 0.5, 0.5, ... *)
Definition draws_804 (k : nat) : float :=
  match k with 1%nat => 0.804%float | _ => 0.5%float end.

(** A client whose local time is UTC. *)
Definition utcZone : TimeZone := mkZone (fun _ => 0%Z) (fun _ => 0%Z).

(** The zone of New York around the end of daylight saving time in 2026:
    local time is 4 hours behind UTC before 2026-11-01T06:00:00Z and 5 hours
    behind from then on; a local time before 02:00 of that day, which
    includes the hour that occurs twice, is read with the earlier offset. *)
Definition newYork2026 : TimeZone :=
  mkZone
    (fun t => if (t <? 1793512800000)%Z then (- 4 * 3600000)%Z
              else (- 5 * 3600000)%Z)
    (fun t => if (t <? 1793512800000 - 4 * 3600000)%Z then (- 4 * 3600000)%Z
              else (- 5 * 3600000)%Z).

(** 01:58 local time (05:58 UTC) of 1 November 2026. *)
Definition before_fall_back : Date := mkDate 1793512680000.

(** The prediction that [getPrediction] returns for lot 3 of [db_half], a
    horizon of 3 hours and the environment [env0]. *)
Definition prediction3 : OccupancyPrediction :=
  Eval vm_compute in
    match getPrediction env0 db_half "lot-3" 3 with
    | Returned (Some prediction) => prediction
    | _ =>
        mkPrediction EmptyString 0 0 [] 0 (ISO 0)
          (mkFactors EmptyString EmptyString [] EmptyString) EmptyString
    end.

(** The lots that the read of [db_half] and of [db_lot1] return. *)
Definition served3 : ParkingLot :=
  Eval vm_compute in aggregate env0 lot3 (getSpacesByLotId db_half "lot-3").

Definition served1 : ParkingLot :=
  Eval vm_compute in aggregate env0 lot1 (getSpacesByLotId db_lot1 "lot-1").

(** ** Numbers *)

(** Closes a goal that evaluation of the service on closed data decides. *)
Ltac evaluate := vm_compute; reflexivity.


Lemma gt_true (x y : Q) : gt x y = true <-> y < x.
Proof.
  unfold gt. rewrite (Qgt_alt x y).
  destruct (x ?= y); split; congruence.
Qed.

Lemma lt_true (x y : Q) : lt x y = true <-> x < y.
Proof.
  unfold lt. rewrite Qlt_alt. destruct (x ?= y); split; congruence.
Qed.

Lemma gt_false (x y : Q) : gt x y = false <-> x <= y.
Proof.
  split; intro H.
  - apply Qnot_lt_le. intro L. apply gt_true in L. congruence.
  - destruct (gt x y) eqn:G; [apply gt_true in G; lra | reflexivity].
Qed.

Lemma lt_false (x y : Q) : lt x y = false <-> y <= x.
Proof.
  split; intro H.
  - apply Qnot_lt_le. intro L. apply lt_true in L. congruence.
  - destruct (lt x y) eqn:G; [apply lt_true in G; lra | reflexivity].
Qed.

(** [Math.round x] is the integer [k] with [k <= x + 1/2 < k + 1]. *)
Lemma Math_round_bounds (x : Q) :
  inject_Z (Math_round x) <= x + (1 # 2)
  /\ x + (1 # 2) < inject_Z (Math_round x) + 1.
Proof.
  unfold Math_round. split.
  - apply Qfloor_le.
  - pose proof (Qlt_floor (x + (1 # 2))) as H.
    rewrite inject_Z_plus in H. exact H.
Qed.

(** ** The aggregator *)

Lemma countStatus_numberWithStatus st spaces :
  countStatus st spaces = numberWithStatus st spaces.
Proof.
  unfold countStatus, numberWithStatus.
  induction spaces as [|s spaces IH]; simpl; [reflexivity|].
  destruct (SpaceStatus_eq_dec (status s) st) as [E|N].
  - rewrite E. destruct st; simpl; now rewrite IH.
  - destruct (status s), st; simpl; try congruence; exact IH.
Qed.

Lemma countStatus_partition spaces :
  (countStatus available spaces + countStatus occupied spaces
   + countStatus offline spaces + countStatus reserved spaces
   = List.length spaces)%nat.
Proof.
  unfold countStatus.
  induction spaces as [|s spaces IH]; simpl; [reflexivity|].
  destruct (status s); simpl; lia.
Qed.

Lemma countStatus_le_length (st : SpaceStatus) (l : list ParkingSpace) :
  (countStatus st l <= List.length l)%nat.
Proof. unfold countStatus. apply filter_length_le. Qed.

Lemma aggregate_balanced e lot spaces :
  balanced spaces lot (aggregate e lot spaces).
Proof.
  pose proof (countStatus_partition spaces) as P.
  unfold balanced, aggregate; simpl.
  rewrite <- countStatus_numberWithStatus.
  assert (S : inject_Z (Z.of_nat (countStatus available spaces))
              + inject_Z (Z.of_nat (countStatus occupied spaces))
              + inject_Z (Z.of_nat (countStatus offline spaces))
              + inject_Z (Z.of_nat (countStatus reserved spaces))
              == inject_Z (Z.of_nat (List.length spaces))).
  { rewrite <- !inject_Z_plus, <- !Nat2Z.inj_add, P. reflexivity. }
  split; [exact S|]. split.
  - intro NE. destruct spaces as [|s spaces]; [congruence|].
    split; [reflexivity|].
    rewrite <- S.
    assert (0 <= inject_Z (Z.of_nat (countStatus reserved (s :: spaces)))).
    { change 0 with (inject_Z 0). rewrite <- Zle_Qle. lia. }
    lra.
  - intros ->. simpl. split; [reflexivity|]. reflexivity.
Qed.

(** C1, as the claim states it, fails: with one occupied and one reserved
    space the three counts add up to 1 and [totalSpaces] is 2. *)
Lemma getLotById_sum_counterexample :
  exists agg, getLotById env0 db_reserved "lot-3" = Some agg
    /\ ~ (availableSpaces agg + occupiedSpaces agg + offlineSpaces agg
          == totalSpaces agg).
Proof.
  eexists. split; [reflexivity|]. vm_compute. discriminate.
Qed.

(** C1 (amended): for the lot returned by either read, availableSpaces +
    occupiedSpaces + offlineSpaces + the number of reserved spaces is the
    number of space records of the lot; when there are space records
    totalSpaces is their number, so the three counts add up to at most
    totalSpaces; when there are none, totalSpaces is the static capacity of
    the lot and the three counts are 0. *)
Theorem lot_read_balanced (e : Env) (db : Store) :
  (forall id lot, getItem db id = Some lot ->
     exists agg, getLotById e db id = Some agg
       /\ balanced (getSpacesByLotId db id) lot agg)
  /\ Forall2 (fun lot agg => balanced (getSpacesByLotId db (lotId lot)) lot agg)
             (parkingLotTable db) (snd (getAllLots e false (Returned db))).
Proof.
  split.
  - intros id lot H. unfold getLotById. rewrite H.
    eexists. split; [reflexivity|]. apply aggregate_balanced.
  - unfold getAllLots. cbn [snd].
    induction (parkingLotTable db) as [|lot lots IH]; simpl.
    + constructor.
    + constructor; [apply aggregate_balanced | exact IH].
Qed.

(** The lots of the mock data have counts that add up to their capacity. *)
Lemma MOCK_LOTS_sum (e : Env) (useMockData : bool) (err : string) :
  Forall (fun lot =>
            availableSpaces lot + occupiedSpaces lot + offlineSpaces lot
            == totalSpaces lot)
         (snd (getAllLots e true (Thrown err)))
  /\ fst (getAllLots e useMockData (Thrown err)) = true.
Proof.
  split.
  - cbn. repeat constructor.
  - unfold getAllLots. now destruct useMockData.
Qed.

Lemma lot_read_balanced_witness :
  exists agg, getLotById env0 db_reserved "lot-3" = Some agg
    /\ balanced (getSpacesByLotId db_reserved "lot-3") lot3 agg.
Proof.
  apply (proj1 (lot_read_balanced env0 db_reserved) "lot-3"%string lot3).
  reflexivity.
Defined.



(** ** The loop of getPrediction *)

Section Loop.

Variables (e : Env) (lot : ParkingLot).

Lemma forLoop_snoc (n : nat) : forall i k acc,
  forLoop e lot (S n) i k acc
  = forLoop e lot n i k acc
    ++ [predictionPoint e lot (i + Z.of_nat n) (k + n)
          (forLoop e lot n i k acc)].
Proof.
  induction n as [|n IH]; intros i k acc.
  - simpl. now rewrite Z.add_0_r, Nat.add_0_r.
  - change (forLoop e lot (S (S n)) i k acc)
      with (forLoop e lot (S n) (i + 1) (S k)
              (acc ++ [predictionPoint e lot i k acc])).
    rewrite IH. cbn [forLoop].
    replace (i + 1 + Z.of_nat n)%Z with (i + Z.of_nat (S n))%Z by lia.
    replace (S k + n)%nat with (k + S n)%nat by lia.
    reflexivity.
Qed.

Lemma series_S (n : nat) :
  series e lot (S n)
  = series e lot n
    ++ [predictionPoint e lot (Z.of_nat (S n)) n (series e lot n)].
Proof.
  unfold series. rewrite forLoop_snoc. simpl Nat.add.
  replace (1 + Z.of_nat n)%Z with (Z.of_nat (S n)) by lia.
  reflexivity.
Qed.

Lemma series_length (n : nat) : List.length (series e lot n) = n.
Proof.
  induction n as [|n IH]; [reflexivity|].
  rewrite series_S, length_app, IH. simpl. lia.
Qed.

(** The point of index [j] is the one that iteration [j + 1] pushes onto the
    first [j] points. *)
Lemma series_nth (n : nat) : forall j, (j < n)%nat ->
  nth_error (series e lot n) j
  = Some (predictionPoint e lot (Z.of_nat (S j)) j (series e lot j)).
Proof.
  induction n as [|n IH]; intros j Hj; [lia|].
  rewrite series_S.
  destruct (Nat.eq_dec j n) as [->|Hne].
  - rewrite nth_error_app2; rewrite series_length; [|lia].
    now rewrite Nat.sub_diag.
  - rewrite nth_error_app1; [|rewrite series_length; lia].
    apply IH. lia.
Qed.

Lemma series_nth_inv (n j : nat) (p : PredictionDataPoint) :
  nth_error (series e lot n) j = Some p ->
  (j < n)%nat
  /\ p = predictionPoint e lot (Z.of_nat (S j)) j (series e lot j).
Proof.
  intro H.
  assert (Hj : (j < n)%nat).
  { rewrite <- (series_length n). apply nth_error_Some. congruence. }
  split; [exact Hj|]. rewrite (series_nth n j Hj) in H. congruence.
Qed.

End Loop.

(** What [getPrediction] returns when it returns a prediction. *)
Lemma getPrediction_inv e db id hours pred :
  getPrediction e db id hours = Returned (Some pred) ->
  exists lot, getLotById e db id = Some lot
    /\ predictions pred = series e lot (Z.to_nat hours)
    /\ pred_confidence pred = 85 # 100
    /\ currentOccupancy pred = occupancyRate lot
    /\ currentAvailable pred = availableSpaces lot
    /\ generateRecommendation e (predictions pred) lot
       = Returned (recommendation pred).
Proof.
  unfold getPrediction. destruct (getLotById e db id) as [lot|]; [|discriminate].
  fold (series e lot (Z.to_nat hours)).
  destruct (generateRecommendation e (series e lot (Z.to_nat hours)) lot)
    as [text|err] eqn:R; [|discriminate].
  intro H. injection H as <-. exists lot. simpl. now rewrite R.
Qed.

(** [getPrediction] returns a prediction for a known lot and a horizon of
    at least one hour. *)
Lemma getPrediction_returns e db id hours lot :
  getLotById e db id = Some lot -> (1 <= hours)%Z ->
  exists pred, getPrediction e db id hours = Returned (Some pred).
Proof.
  intros L H. unfold getPrediction. rewrite L.
  fold (series e lot (Z.to_nat hours)).
  destruct (Z.to_nat hours) as [|n] eqn:N; [lia|].
  rewrite series_S.
  unfold generateRecommendation.
  destruct (series e lot n ++ _) as [|p0 l] eqn:E.
  - destruct (series e lot n); discriminate.
  - destruct (gt _ 85); [|destruct (lt _ 10)]; eexists; reflexivity.
Qed.

(** C9: for a known lot and a horizon h from 1 to 12, [getPrediction]
    returns a prediction whose series has exactly h points. *)
Theorem getPrediction_length (e : Env) (db : Store) (id : string) (h : Z)
  (lot : ParkingLot) :
  getLotById e db id = Some lot -> (1 <= h <= 12)%Z ->
  exists pred, getPrediction e db id h = Returned (Some pred)
    /\ Z.of_nat (List.length (predictions pred)) = h.
Proof.
  intros L [H1 H12].
  destruct (getPrediction_returns e db id h lot L H1) as [pred P].
  exists pred. split; [exact P|].
  destruct (getPrediction_inv _ _ _ _ _ P) as (lot' & _ & S & _).
  rewrite S, series_length. lia.
Qed.

Lemma getPrediction_length_witness :
  exists pred, getPrediction env0 db_half "lot-3" 12 = Returned (Some pred)
    /\ Z.of_nat (List.length (predictions pred)) = 12%Z.
Proof.
  apply (getPrediction_length env0 db_half "lot-3"%string 12
           (aggregate env0 lot3 (getSpacesByLotId db_half "lot-3"))).
  - reflexivity.
  - lia.
Defined.

(** C10: the top-level confidence of every prediction that [getPrediction]
    returns is 0.85, whatever the lot, the horizon and the draws, and a
    prediction is returned for every known lot and horizon of at least one
    hour. *)
Theorem getPrediction_confidence (e : Env) (db : Store) (id : string) (h : Z) :
  (forall pred, getPrediction e db id h = Returned (Some pred) ->
     pred_confidence pred = 85 # 100)
  /\ (forall lot, getLotById e db id = Some lot -> (1 <= h)%Z ->
       exists pred, getPrediction e db id h = Returned (Some pred)
         /\ pred_confidence pred = 85 # 100).
Proof.
  assert (A : forall pred, getPrediction e db id h = Returned (Some pred) ->
                pred_confidence pred = 85 # 100).
  { intros pred P.
    destruct (getPrediction_inv _ _ _ _ _ P) as (lot & _ & _ & C & _).
    exact C. }
  split; [exact A|]. intros lot L H.
  destruct (getPrediction_returns e db id h lot L H) as [pred P].
  exists pred. split; [exact P | exact (A pred P)].
Qed.

Lemma getPrediction_confidence_witness :
  exists pred, getPrediction env0 db_half "lot-3" 3 = Returned (Some pred)
    /\ pred_confidence pred = 85 # 100.
Proof.
  apply (proj2 (getPrediction_confidence env0 db_half "lot-3"%string 3)
           (aggregate env0 lot3 (getSpacesByLotId db_half "lot-3"))).
  - reflexivity.
  - lia.
Defined.

(** A point of a returned prediction is the point that its iteration of the
    loop pushes. *)
Lemma getPrediction_point e db id h pred j p :
  getPrediction e db id h = Returned (Some pred) ->
  nth_error (predictions pred) j = Some p ->
  exists lot, getLotById e db id = Some lot
    /\ (j < Z.to_nat h)%nat
    /\ p = predictionPoint e lot (Z.of_nat (S j)) j (series e lot j).
Proof.
  intros P N. destruct (getPrediction_inv _ _ _ _ _ P) as (lot & L & S & _).
  rewrite S in N. apply series_nth_inv in N. exists lot. tauto.
Qed.

(** The [i]-th point of a returned prediction, for [i] from 1 to the
    horizon, exists. *)
Lemma getPrediction_point_exists e db id h pred i :
  getPrediction e db id h = Returned (Some pred) -> (1 <= i <= h)%Z ->
  exists p, point pred i = Some p.
Proof.
  intros P Hi. destruct (getPrediction_inv _ _ _ _ _ P) as (lot & _ & S & _).
  unfold point.
  destruct (nth_error (predictions pred) (Z.to_nat (i - 1))) as [p|] eqn:N;
    [now exists p|].
  apply nth_error_None in N. rewrite S, series_length in N. lia.
Qed.

Lemma succ_index (i : Z) : (1 <= i)%Z -> Z.of_nat (S (Z.to_nat (i - 1))) = i.
Proof. lia. Qed.

(** ** Timestamps *)

Lemma div_add_hours (t i c : Z) :
  (0 < c)%Z -> (c | 3600000)%Z ->
  ((t + i * 3600000) / c = t / c + i * (3600000 / c))%Z.
Proof.
  intros Hc [m Hm]. rewrite Hm, Z.div_mul by lia.
  rewrite Z.mul_assoc, Z.div_add by lia. reflexivity.
Qed.

(** The timestamp of the point of index [j]. *)
Lemma timestamp_at (e : Env) (db : Store) (id : string) (h : Z)
  (pred : OccupancyPrediction) (j : nat) (p : PredictionDataPoint) :
  getPrediction e db id h = Returned (Some pred) ->
  nth_error (predictions pred) j = Some p ->
  timestamp p = ISO (getTime (now e) + Z.of_nat (S j) * 3600000)
  /\ getUTCMinutes (parseISO (timestamp p)) = getUTCMinutes (now e)
  /\ getUTCSeconds (parseISO (timestamp p)) = getUTCSeconds (now e)
  /\ getUTCMilliseconds (parseISO (timestamp p)) = getUTCMilliseconds (now e)
  /\ (topOfHour (timestamp p) <-> topOfHour (toISOString (now e))).
Proof.
  intros P N.
  destruct (getPrediction_point _ _ _ _ _ _ _ P N) as (lot & L & _ & ->).
  set (i := Z.of_nat (S j)).
  assert (T : timestamp (predictionPoint e lot i j (series e lot j))
              = ISO (getTime (now e) + i * 3600000)).
  { cbn [timestamp predictionPoint]. unfold toISOString, predictionTime.
    cbn [getTime]. f_equal. ring. }
  rewrite T. cbn [parseISO].
  assert (M : getUTCMinutes (mkDate (getTime (now e) + i * 3600000))
              = getUTCMinutes (now e)).
  { unfold getUTCMinutes. cbn [getTime].
    rewrite (div_add_hours _ i 60000) by (try lia; exists 60%Z; lia).
    change (3600000 / 60000)%Z with 60%Z. apply Z_mod_plus_full. }
  assert (S : getUTCSeconds (mkDate (getTime (now e) + i * 3600000))
              = getUTCSeconds (now e)).
  { unfold getUTCSeconds. cbn [getTime].
    rewrite (div_add_hours _ i 1000) by (try lia; exists 3600%Z; lia).
    change (3600000 / 1000)%Z with (60 * 60)%Z.
    rewrite Z.mul_assoc. apply Z_mod_plus_full. }
  assert (MS : getUTCMilliseconds (mkDate (getTime (now e) + i * 3600000))
               = getUTCMilliseconds (now e)).
  { unfold getUTCMilliseconds. cbn [getTime].
    replace (i * 3600000)%Z with (i * 3600 * 1000)%Z by ring.
    apply Z_mod_plus_full. }
  assert (R : parseISO (toISOString (now e)) = now e) by (now destruct (now e)).
  split; [reflexivity|]. split; [exact M|]. split; [exact S|].
  split; [exact MS|].
  unfold topOfHour. cbn [parseISO]. rewrite R, M, S. tauto.
Qed.

(** C7, as the claim states it, fails: a request at 12:34:56 gets a first
    point at 13:34:56, which is not the top of an hour. *)
Lemma timestamp_counterexample :
  exists pred p,
    getPrediction env_1234 db_half "lot-3" 1 = Returned (Some pred)
    /\ point pred 1 = Some p
    /\ ~ topOfHour (timestamp p).
Proof.
  eexists. eexists.
  split; [evaluate|]. split; [evaluate|].
  unfold topOfHour. vm_compute. intros [H _]. discriminate H.
Qed.

(** C7 (amended): for a known lot and a horizon h of at least one hour, the
    timestamp of the i-th point, for every i from 1 to h, is the instant of
    the request plus i hours exactly; its minutes, seconds and milliseconds
    are those of the instant of the request, so it is the top of an hour
    exactly when the request was made at the top of an hour. *)
Theorem point_timestamp (e : Env) (db : Store) (id : string) (h : Z)
  (lot : ParkingLot) :
  getLotById e db id = Some lot -> (1 <= h)%Z ->
  exists pred, getPrediction e db id h = Returned (Some pred)
    /\ forall i, (1 <= i <= h)%Z ->
       exists p, point pred i = Some p
         /\ timestamp p = ISO (getTime (now e) + i * 3600000)
         /\ getUTCMinutes (parseISO (timestamp p)) = getUTCMinutes (now e)
         /\ getUTCSeconds (parseISO (timestamp p)) = getUTCSeconds (now e)
         /\ getUTCMilliseconds (parseISO (timestamp p))
            = getUTCMilliseconds (now e)
         /\ (topOfHour (timestamp p) <-> topOfHour (toISOString (now e))).
Proof.
  intros L H. destruct (getPrediction_returns e db id h lot L H) as [pred P].
  exists pred. split; [exact P|]. intros i Hi.
  destruct (getPrediction_point_exists _ _ _ _ _ i P Hi) as [p Np].
  exists p. split; [exact Np|].
  pose proof (timestamp_at _ _ _ _ _ _ _ P Np) as T.
  rewrite succ_index in T by lia. exact T.
Qed.

Lemma point_timestamp_witness :
  exists pred, getPrediction env_1234 db_half "lot-3" 3 = Returned (Some pred)
    /\ forall i, (1 <= i <= 3)%Z ->
       exists p, point pred i = Some p
         /\ timestamp p = ISO (getTime (now env_1234) + i * 3600000)
         /\ getUTCMinutes (parseISO (timestamp p))
            = getUTCMinutes (now env_1234)
         /\ getUTCSeconds (parseISO (timestamp p))
            = getUTCSeconds (now env_1234)
         /\ getUTCMilliseconds (parseISO (timestamp p))
            = getUTCMilliseconds (now env_1234)
         /\ (topOfHour (timestamp p)
             <-> topOfHour (toISOString (now env_1234))).
Proof.
  apply (point_timestamp env_1234 db_half "lot-3"%string 3
           (aggregate env_1234 lot3 (getSpacesByLotId db_half "lot-3"))).
  - reflexivity.
  - lia.
Defined.

(** ** Predicted occupancy and availability *)


(** ** Trend *)


(** ** Recommendation *)

Lemma peakOf_snoc (l : list PredictionDataPoint) (x init : PredictionDataPoint) :
  peakOf (l ++ [x]) init
  = if gt (predictedOccupancy x) (predictedOccupancy (peakOf l init))
    then x else peakOf l init.
Proof. unfold peakOf. now rewrite fold_left_app. Qed.

(** The reduction started from the first point selects the first point that
    attains the maximum. *)
Lemma peakOf_isFirstPeak (p0 : PredictionDataPoint)
  (rest : list PredictionDataPoint) :
  isFirstPeak (p0 :: rest) (peakOf (p0 :: rest) p0).
Proof.
  induction rest as [|x rest IH] using rev_ind.
  - exists 0%nat. unfold peakOf. simpl.
    assert (G : gt (predictedOccupancy p0) (predictedOccupancy p0) = false)
      by (apply gt_false; lra).
    rewrite G. split; [reflexivity|]. split.
    + intros [|k] q Hq; simpl in Hq.
      * injection Hq as <-. lra.
      * destruct k; discriminate.
    + intros k q Hk. lia.
  - change (p0 :: rest ++ [x]) with ((p0 :: rest) ++ [x]).
    rewrite peakOf_snoc.
    set (l := p0 :: rest) in *. set (peak := peakOf l p0) in *.
    destruct IH as (j & Nj & Max & First).
    assert (Lj : (j < List.length l)%nat)
      by (apply nth_error_Some; congruence).
    destruct (gt (predictedOccupancy x) (predictedOccupancy peak)) eqn:G.
    + apply gt_true in G. exists (List.length l). split; [|split].
      * rewrite nth_error_app2, Nat.sub_diag by lia. reflexivity.
      * intros k q Hq.
        destruct (Nat.lt_ge_cases k (List.length l)) as [Hk|Hk].
        -- rewrite nth_error_app1 in Hq by exact Hk.
           specialize (Max k q Hq). lra.
        -- rewrite nth_error_app2 in Hq by exact Hk.
           destruct (k - List.length l)%nat as [|m]; simpl in Hq.
           ++ injection Hq as <-. lra.
           ++ destruct m; discriminate.
      * intros k q Hk Hq. rewrite nth_error_app1 in Hq by exact Hk.
        specialize (Max k q Hq). lra.
    + apply gt_false in G. exists j. split; [|split].
      * rewrite nth_error_app1 by exact Lj. exact Nj.
      * intros k q Hq.
        destruct (Nat.lt_ge_cases k (List.length l)) as [Hk|Hk].
        -- rewrite nth_error_app1 in Hq by exact Hk. exact (Max k q Hq).
        -- rewrite nth_error_app2 in Hq by exact Hk.
           destruct (k - List.length l)%nat as [|m]; simpl in Hq.
           ++ injection Hq as <-. exact G.
           ++ destruct m; discriminate.
      * intros k q Hk Hq.
        rewrite nth_error_app1 in Hq by lia. exact (First k q Hk Hq).
Qed.

(** The recommendation for a series that is not empty: the peak is the first
    point that attains the maximum, and the text follows the three cases of
    [generateRecommendation]. *)
Lemma generateRecommendation_cases (e : Env)
  (l : list PredictionDataPoint) (lot : ParkingLot) :
  l <> [] ->
  exists peak text,
    isFirstPeak l peak
    /\ generateRecommendation e l lot = Returned text
    /\ (85 < predictedOccupancy peak ->
        text = ("High demand expected around "
                ++ timeStr (getHours (tz e) (parseISO (timestamp peak)))
                           (getMinutes (tz e) (parseISO (timestamp peak)))
                ++ ". Consider arriving earlier for better availability.")%string)
    /\ (predictedOccupancy peak <= 85 -> availableSpaces lot < 10 ->
        text = "Limited spaces available now. Consider alternative lots if possible."%string)
    /\ (predictedOccupancy peak <= 85 -> 10 <= availableSpaces lot ->
        text = "Good availability expected. No concerns at this time."%string).
Proof.
  intro NE. destruct l as [|p0 rest]; [congruence|].
  exists (peakOf (p0 :: rest) p0).
  pose proof (peakOf_isFirstPeak p0 rest) as F.
  unfold generateRecommendation.
  destruct (gt (predictedOccupancy (peakOf (p0 :: rest) p0)) 85) eqn:G.
  - apply gt_true in G. eexists. split; [exact F|]. split; [reflexivity|].
    split; [reflexivity|]. split; intros; lra.
  - apply gt_false in G.
    destruct (lt (availableSpaces lot) 10) eqn:A.
    + apply lt_true in A. eexists. split; [exact F|]. split; [reflexivity|].
      split; [intros; lra|]. split; [reflexivity | intros; lra].
    + apply lt_false in A. eexists. split; [exact F|]. split; [reflexivity|].
      split; [intros; lra|]. split; [intros; lra | reflexivity].
Qed.

(** X10: the recommendation of the prediction returned for a known lot and
    a horizon of at least one hour: the peak is the first point that attains
    the maximal predictedOccupancy; above 85 the text names the local time
    of the peak as the template of [generateRecommendation] prints it,
    otherwise it is the text about limited spaces when the lot has fewer
    than 10 available spaces and the text about good availability when it
    has at least 10. *)
Lemma getPrediction_recommendation e db id h lot :
  getLotById e db id = Some lot -> (1 <= h)%Z ->
  exists pred peak,
    getPrediction e db id h = Returned (Some pred)
    /\ isFirstPeak (predictions pred) peak
    /\ (85 < predictedOccupancy peak ->
        recommendation pred
        = ("High demand expected around "
           ++ timeStr (getHours (tz e) (parseISO (timestamp peak)))
                      (getMinutes (tz e) (parseISO (timestamp peak)))
           ++ ". Consider arriving earlier for better availability.")%string)
    /\ (predictedOccupancy peak <= 85 -> availableSpaces lot < 10 ->
        recommendation pred
        = "Limited spaces available now. Consider alternative lots if possible."%string)
    /\ (predictedOccupancy peak <= 85 -> 10 <= availableSpaces lot ->
        recommendation pred
        = "Good availability expected. No concerns at this time."%string).
Proof.
  intros L H. destruct (getPrediction_returns e db id h lot L H) as [pred P].
  destruct (getPrediction_inv _ _ _ _ _ P) as (lot' & L' & S & _ & _ & _ & R).
  assert (lot' = lot) by congruence. subst lot'.
  assert (NE : predictions pred <> []).
  { intro E. rewrite E in R. discriminate R. }
  destruct (generateRecommendation_cases e _ lot NE)
    as (peak & text & F & R' & C1 & C2 & C3).
  assert (text = recommendation pred) by congruence. subst text.
  exists pred, peak. tauto.
Qed.

(** X11: from 1 o'clock to 23 o'clock the template of
    [generateRecommendation] prints the time of a 12-hour clock. *)
Lemma timeStr_clock12 (hours minutes : Z) :
  (1 <= hours <= 23)%Z -> timeStr hours minutes = clock12 hours minutes.
Proof.
  intro H. unfold timeStr, clock12.
  assert (C : (hours = 1 \/ hours = 2 \/ hours = 3 \/ hours = 4 \/ hours = 5
               \/ hours = 6 \/ hours = 7 \/ hours = 8 \/ hours = 9
               \/ hours = 10 \/ hours = 11 \/ hours = 12 \/ hours = 13
               \/ hours = 14 \/ hours = 15 \/ hours = 16 \/ hours = 17
               \/ hours = 18 \/ hours = 19 \/ hours = 20 \/ hours = 21
               \/ hours = 22 \/ hours = 23)%Z) by lia.
  repeat (destruct C as [->|C]; [reflexivity|]). subst hours. reflexivity.
Qed.

(** In the hour after midnight it prints the hour 0, which a 12-hour clock
    does not have. *)
Lemma timeStr_midnight (minutes : Z) :
  timeStr 0 minutes = ("0:" ++ padStart2 (toString minutes) ++ " AM")%string
  /\ clock12 0 minutes
     = ("12:" ++ padStart2 (toString minutes) ++ " AM")%string.
Proof. split; reflexivity. Qed.

(** C5 at a request made at 23:30 for a lot at the rate 90: the peak is the
    point of 00:30, above 85, and the recommendation names the time
    0:30 AM where a 12-hour clock reads 12:30 AM. *)
Theorem recommendation_after_midnight :
  exists pred peak,
    getPrediction env_2330 db_busy "lot-3" 1 = Returned (Some pred)
    /\ isFirstPeak (predictions pred) peak
    /\ 85 < predictedOccupancy peak
    /\ getHours (tz env_2330) (parseISO (timestamp peak)) = 0%Z
    /\ getMinutes (tz env_2330) (parseISO (timestamp peak)) = 30%Z
    /\ recommendation pred
       = "High demand expected around 0:30 AM. Consider arriving earlier for better availability."%string
    /\ clock12 0 30 = "12:30 AM"%string.
Proof.
  eexists. eexists. split; [evaluate|].
  split.
  - exists 0%nat. split; [reflexivity|]. split.
    + intros [|[|k]] q Hq; simpl in Hq; try discriminate.
      injection Hq as <-. apply Qle_refl.
    + intros k q Hk. lia.
  - cbn [predictedOccupancy timestamp recommendation].
    split; [reflexivity|]. repeat split.
Qed.

(** ** The prediction route *)

Import Route.

Lemma parseDigits_decimal (u : Decimal.uint) : forall acc : Z,
  parseDigits 10 (NilEmpty.string_of_uint u) (Some acc)
  = Some (decimalValue u acc).
Proof.
  induction u; intro acc; cbn [NilEmpty.string_of_uint parseDigits decimalValue];
    [reflexivity | ..];
    match goal with
    | |- context [digitValue 10 ?c] =>
        let v := eval vm_compute in (digitValue 10 c) in
        change (digitValue 10 c) with v
    end; cbv iota; apply IHu.
Qed.

Lemma decimalValue_pos (u : Decimal.uint) : forall p : positive,
  decimalValue u (Z.pos p) = Z.pos (Pos.of_uint_acc u p).
Proof.
  induction u; intro p; cbn [decimalValue Pos.of_uint_acc];
    [reflexivity | ..];
    match goal with
    | |- decimalValue _ ?a = Z.pos (Pos.of_uint_acc _ ?b) =>
        replace a with (Z.pos b) by lia
    end; apply IHu.
Qed.

Lemma decimalValue_of_uint (u : Decimal.uint) :
  decimalValue u 0 = Z.of_uint u.
Proof.
  unfold Z.of_uint.
  induction u; cbn [decimalValue Pos.of_uint]; try exact IHu;
    try reflexivity;
    change (10 * 0 + ?k)%Z with k; rewrite decimalValue_pos; reflexivity.
Qed.

Lemma parseMagnitude_decimal (u : Decimal.uint) :
  u <> Decimal.Nil ->
  parseMagnitude (NilEmpty.string_of_uint u) = Some (Z.of_uint u).
Proof.
  intro NE. rewrite <- decimalValue_of_uint.
  destruct u as [|u|u|u|u|u|u|u|u|u|u]; [congruence | ..];
    try (unfold parseMagnitude;
         cbn [NilEmpty.string_of_uint parseDigits decimalValue];
         match goal with
         | |- context [digitValue 10 ?c] =>
             let v := eval vm_compute in (digitValue 10 c) in
             change (digitValue 10 c) with v
         end; cbv iota; apply parseDigits_decimal).
  (* a leading zero: the next character is a digit or the end *)
  assert (E : parseMagnitude (NilEmpty.string_of_uint (Decimal.D0 u))
              = parseDigits 10 (NilEmpty.string_of_uint (Decimal.D0 u)) None).
  { destruct u; reflexivity. }
  rewrite E.
  change (parseDigits 10 (NilEmpty.string_of_uint (Decimal.D0 u)) None)
    with (parseDigits 10 (NilEmpty.string_of_uint u) (Some (10 * 0 + 0)%Z)).
  cbn [decimalValue]. apply parseDigits_decimal.
Qed.

Lemma parseInt_unsigned (u : Decimal.uint) :
  u <> Decimal.Nil ->
  parseInt (NilEmpty.string_of_uint u) = Some (Z.of_uint u).
Proof.
  intro NE. rewrite <- (parseMagnitude_decimal u NE).
  destruct u; [congruence | reflexivity ..].
Qed.

Lemma to_uint_not_Nil (p : positive) : Pos.to_uint p <> Decimal.Nil.
Proof.
  intro E. pose proof (DecimalPos.Unsigned.of_to p) as H.
  rewrite E in H. discriminate H.
Qed.

(** [parseInt] reads the decimal rendering of an integer back. *)
Lemma parseInt_toString (n : Z) : parseInt (toString n) = Some n.
Proof.
  unfold toString. destruct n as [|p|p]; [reflexivity | |].
  - cbn [Z.to_int NilZero.string_of_int]. unfold NilZero.string_of_uint.
    pose proof (to_uint_not_Nil p) as NE.
    pose proof (DecimalPos.Unsigned.of_to p) as OT.
    destruct (Pos.to_uint p) eqn:E; [congruence | ..];
      rewrite parseInt_unsigned by discriminate;
      unfold Z.of_uint; rewrite OT; reflexivity.
  - cbn [Z.to_int NilZero.string_of_int]. unfold NilZero.string_of_uint.
    pose proof (to_uint_not_Nil p) as NE.
    pose proof (DecimalPos.Unsigned.of_to p) as OT.
    assert (M : forall u, u <> Decimal.Nil ->
                parseInt (String "-" (NilEmpty.string_of_uint u))
                = option_map Z.opp (parseMagnitude (NilEmpty.string_of_uint u)))
      by reflexivity.
    destruct (Pos.to_uint p) eqn:E; [congruence | ..];
      rewrite M by discriminate;
      rewrite parseMagnitude_decimal by discriminate;
      unfold Z.of_uint; rewrite OT; reflexivity.
Qed.

(** An absent [hours] parameter gives the horizon 3. *)
Lemma hoursOf_absent : hoursOf None = 3%Z.
Proof. reflexivity. Qed.

Lemma predictionHandler_absent e db id :
  fst (predictionHandler e db id None) = [GetPrediction id 3].
Proof. reflexivity. Qed.

(** A parameter that [parseInt] reads as a number other than 0 outside of
    1..12 is answered with the status 400 and no call of the engine. *)
Lemma predictionHandler_rejects e db id (s : string) (n : Z) :
  parseInt s = Some n -> n <> 0%Z -> (n < 1 \/ 12 < n)%Z ->
  predictionHandler e db id (Some s)
  = ([], mkResponse 400 false (Some "VALIDATION_ERROR"%string) None).
Proof.
  intros P NZ R. unfold predictionHandler, hoursOf. rewrite P.
  destruct n as [|p|p]; [congruence | |].
  - assert (T : ((Z.pos p <? 1) || (Z.pos p >? 12))%Z = true)
      by (apply orb_true_iff; right; apply Z.gtb_lt; lia).
    now rewrite T.
  - reflexivity.
Qed.

(** X13: every integer N other than 0 outside of the range from 1 to 12,
    sent as [hours=N], is answered with the status 400 and no call of the
    engine. *)
Lemma predictionHandler_out_of_range e db id (n : Z) :
  n <> 0%Z -> (n < 1 \/ 12 < n)%Z ->
  predictionHandler e db id (Some (toString n))
  = ([], mkResponse 400 false (Some "VALIDATION_ERROR"%string) None).
Proof.
  intros NZ R.
  apply (predictionHandler_rejects e db id _ n (parseInt_toString n) NZ R).
Qed.

(** An integer N from 1 to 12 reaches the engine with the horizon N. *)
Lemma predictionHandler_in_range e db id (n : Z) :
  (1 <= n <= 12)%Z ->
  fst (predictionHandler e db id (Some (toString n))) = [GetPrediction id n].
Proof.
  intro R. unfold predictionHandler, hoursOf. rewrite parseInt_toString.
  destruct n as [|p|p]; try lia.
  assert (T : ((Z.pos p <? 1) || (Z.pos p >? 12))%Z = false).
  { apply orb_false_iff. split; [apply Z.ltb_ge | rewrite Z.gtb_ltb; apply Z.ltb_ge];
      lia. }
  now rewrite T.
Qed.

(** C6 at [hours=0]: 0 is an integer outside of the range from 1 to 12, and
    the handler reads it as absent: it calls the engine with the horizon 3
    and does not answer 400; for a known lot the status is 200. *)
Theorem predictionHandler_zero (e : Env) (db : Store) (id : string) :
  parseInt "0" = Some 0%Z
  /\ fst (predictionHandler e db id (Some "0"%string)) = [GetPrediction id 3]
  /\ statusCode (snd (predictionHandler e db id (Some "0"%string))) <> 400%Z
  /\ statusCode (snd (predictionHandler env0 db_half "lot-3" (Some "0"%string)))
     = 200%Z.
Proof.
  split; [reflexivity|]. split; [reflexivity|]. split.
  - change (predictionHandler e db id (Some "0"%string))
      with ([GetPrediction id 3],
            match getPrediction e db id 3 with
            | Thrown _ => mkResponse 500 false (Some "INTERNAL_ERROR"%string) None
            | Returned None => mkResponse 404 false (Some "LOT_NOT_FOUND"%string) None
            | Returned (Some prediction) => mkResponse 200 true None (Some prediction)
            end).
    cbn [snd]. destruct (getPrediction e db id 3) as [[pred|]|err];
      cbn [statusCode]; discriminate.
  - vm_compute. reflexivity.
Qed.

(** * The values of the service in binary64 arithmetic *)

Section Doubles.

Import Binary64.
Local Open Scope float_scope.

(** ** Enumeration *)


Lemma rangeZ_In (lo : Z) (n : nat) (z : Z) :
  (lo <= z < lo + Z.of_nat n)%Z -> In z (rangeZ lo n).
Proof.
  intro H. unfold rangeZ. apply in_map_iff.
  exists (Z.to_nat (z - lo)). split; [lia|]. apply in_seq. lia.
Qed.

Lemma forallb_rangeZ (f : Z -> bool) (lo : Z) (n : nat) :
  forallb f (rangeZ lo n) = true ->
  forall z, (lo <= z < lo + Z.of_nat n)%Z -> f z = true.
Proof.
  intros H z Hz. rewrite forallb_forall in H. apply H, rangeZ_In, Hz.
Qed.

(** ** The loop of getPrediction *)

Section Loop64.

Variables (e : Env) (lot : ParkingLot).

Lemma forLoop64_snoc (n : nat) : forall i k acc,
  forLoop e lot (S n) i k acc
  = forLoop e lot n i k acc
    ++ [predictionPoint e lot (i + Z.of_nat n) (k + n)
          (forLoop e lot n i k acc)].
Proof.
  induction n as [|n IH]; intros i k acc.
  - simpl. now rewrite Z.add_0_r, Nat.add_0_r.
  - change (forLoop e lot (S (S n)) i k acc)
      with (forLoop e lot (S n) (i + 1) (S k)
              (acc ++ [predictionPoint e lot i k acc])).
    rewrite IH. cbn [forLoop].
    replace (i + 1 + Z.of_nat n)%Z with (i + Z.of_nat (S n))%Z by lia.
    replace (S k + n)%nat with (k + S n)%nat by lia.
    reflexivity.
Qed.

Lemma series64_S (n : nat) :
  series e lot (S n)
  = series e lot n
    ++ [predictionPoint e lot (Z.of_nat (S n)) n (series e lot n)].
Proof.
  unfold series. rewrite forLoop64_snoc. simpl Nat.add.
  replace (1 + Z.of_nat n)%Z with (Z.of_nat (S n)) by lia.
  reflexivity.
Qed.

Lemma series64_length (n : nat) : List.length (series e lot n) = n.
Proof.
  induction n as [|n IH]; [reflexivity|].
  rewrite series64_S, length_app, IH. simpl. lia.
Qed.

Lemma series64_nth (n : nat) : forall j, (j < n)%nat ->
  nth_error (series e lot n) j
  = Some (predictionPoint e lot (Z.of_nat (S j)) j (series e lot j)).
Proof.
  induction n as [|n IH]; intros j Hj; [lia|].
  rewrite series64_S.
  destruct (Nat.eq_dec j n) as [->|Hne].
  - rewrite nth_error_app2; rewrite series64_length; [|lia].
    now rewrite Nat.sub_diag.
  - rewrite nth_error_app1; [|rewrite series64_length; lia].
    apply IH. lia.
Qed.

End Loop64.

(** [getPrediction] returns a prediction for a known lot and a horizon of
    at least one hour, and its series is the one of the loop. *)
Lemma getPrediction64_returns e db id hours lot :
  getLotById e db id = Returned (Some lot) -> (1 <= hours)%Z ->
  exists pred, getPrediction e db id hours = Returned (Some pred)
    /\ predictions pred = series e lot (Z.to_nat hours).
Proof.
  intros L H. unfold getPrediction. rewrite L.
  fold (series e lot (Z.to_nat hours)).
  destruct (Z.to_nat hours) as [|n] eqn:N; [lia|].
  unfold generateRecommendation.
  destruct (series e lot (S n)) as [|p0 l] eqn:E.
  - pose proof (series64_length e lot (S n)) as Len. rewrite E in Len.
    discriminate Len.
  - destruct (gt _ _); [|destruct (lt _ _)]; eexists; split; reflexivity.
Qed.

(** The [i]-th point of the series, for [i] from 1 to the length, is the
    point that iteration [i] pushes. *)
Lemma series64_point e lot (n : nat) (i : Z) :
  (1 <= i <= Z.of_nat n)%Z ->
  nth_error (series e lot n) (Z.to_nat (i - 1))
  = Some (predictionPoint e lot i (Z.to_nat (i - 1))
            (series e lot (Z.to_nat (i - 1)))).
Proof.
  intro Hi. rewrite series64_nth by lia.
  replace (Z.of_nat (S (Z.to_nat (i - 1)))) with i by lia. reflexivity.
Qed.

(** ** The occupancy rate *)







(** ** Confidence *)

Lemma confidence_table : forallb confidenceCheck (rangeZ 1 100) = true.
Proof. vm_compute. reflexivity. Qed.

Lemma confidenceNear_sound (i : Z) (x : float) :
  confidenceNear i x = true ->
  exists c, toQ x = Some c
    /\ (Qabs (c - ((85 # 100) - (5 # 100) * inject_Z i))
        <= 1 # 1000000000000000)%Q.
Proof.
  unfold confidenceNear. destruct (toQ x) as [c|]; [|discriminate].
  intro H. exists c. split; [reflexivity|]. apply Qle_bool_iff. exact H.
Qed.

Lemma stepNear_sound (x : float) :
  stepNear x = true ->
  exists c, toQ x = Some c
    /\ (Qabs (c - (5 # 100)) <= 1 # 1000000000000000)%Q.
Proof.
  unfold stepNear. destruct (toQ x) as [c|]; [|discriminate].
  intro H. exists c. split; [reflexivity|]. apply Qle_bool_iff. exact H.
Qed.

Lemma confidenceCheck_holds (i : Z) :
  (1 <= i <= 100)%Z ->
  confidenceNear i (confidenceOf i) = true
  /\ (confidenceOf (i + 1) <? confidenceOf i) = true
  /\ stepNear (confidenceOf i - confidenceOf (i + 1)) = true
  /\ (confidenceOf i - confidenceOf (i + 1) =? 0.05) = false
  /\ ((i <= 16)%Z -> (0 <? confidenceOf i) = true)
  /\ ((17 <= i)%Z -> (confidenceOf i <? 0) = true).
Proof.
  intro Hi.
  pose proof (forallb_rangeZ _ _ _ confidence_table i ltac:(lia)) as H.
  unfold confidenceCheck in H.
  apply andb_true_iff in H. destruct H as [H Sign].
  apply andb_true_iff in H. destruct H as [H Off].
  apply andb_true_iff in H. destruct H as [H Step].
  apply andb_true_iff in H. destruct H as [Near Down].
  apply negb_true_iff in Off.
  repeat (split; [assumption|]).
  destruct (i <=? 16)%Z eqn:C; split; intro; try lia; exact Sign.
Qed.

(** C8, as the claim states it, fails: the first point has the confidence
    0.7999999999999999, which is not the number 0.8, and the second point
    has 0.04999999999999993 less, which is not 0.05. *)
Lemma confidence_counterexample :
  exists pred p q,
    getPrediction (env_double (fun _ => 0.5)) (db_double 1 1) "lot-1" 2
    = Returned (Some pred)
    /\ point pred 1 = Some p
    /\ point pred 2 = Some q
    /\ (confidence p =? 0.8) = false
    /\ (confidence p - confidence q =? 0.05) = false.
Proof.
  eexists. eexists. eexists.
  split; [evaluate|].
  split; [evaluate|].
  split; [evaluate|].
  split; evaluate.
Qed.

(** C8 (amended): for a known lot and a horizon h of at least one hour (so
    for every h from 1 to 12), the i-th point has the confidence that the
    expression 0.85 - (i * 0.05) has in binary64 arithmetic.  For each of
    the first hundred points that double is within 10^-15 of
    0.85 - 0.05 * i, it is strictly above the confidence of the next point,
    and the difference of the two is within 10^-15 of 0.05 and is not the
    double 0.05; nothing floors the value: it is positive up to the 16th point
    and negative from the 17th on. *)
Theorem point_confidence_binary64 (e : Env) (db : Store) (id : string) (h : Z)
  (lot : ParkingLot) :
  getLotById e db id = Returned (Some lot) -> (1 <= h)%Z ->
  exists pred, getPrediction e db id h = Returned (Some pred)
    /\ forall i, (1 <= i <= h)%Z ->
       exists p, point pred i = Some p
         /\ confidence p = 0.85 - ofZ i * 0.05
         /\ ((i <= 100)%Z ->
             (exists c, toQ (confidence p) = Some c
                /\ (Qabs (c - ((85 # 100) - (5 # 100) * inject_Z i))
                    <= 1 # 1000000000000000)%Q)
             /\ ((i <= 16)%Z -> (0 <? confidence p) = true)
             /\ ((17 <= i)%Z -> (confidence p <? 0) = true))
         /\ ((i < h)%Z -> (i <= 100)%Z ->
             exists q d, point pred (i + 1) = Some q
               /\ (confidence q <? confidence p) = true
               /\ toQ (confidence p - confidence q) = Some d
               /\ (Qabs (d - (5 # 100)) <= 1 # 1000000000000000)%Q
               /\ (confidence p - confidence q =? 0.05) = false).
Proof.
  intros L H.
  destruct (getPrediction64_returns e db id h lot L H) as (pred & P & S).
  exists pred. split; [exact P|]. intros i Hi.
  unfold point. rewrite S, series64_point by lia.
  eexists. split; [reflexivity|].
  cbn [confidence predictionPoint]. fold (confidenceOf i).
  split; [reflexivity|]. split.
  - intro Hi'.
    destruct (confidenceCheck_holds i ltac:(lia))
      as (Near & _ & _ & _ & Pos & Neg).
    split; [exact (confidenceNear_sound _ _ Near)|]. split; assumption.
  - intros Lt Hi'.
    destruct (confidenceCheck_holds i ltac:(lia))
      as (_ & Down & Step & Off & _ & _).
    rewrite series64_point by lia.
    destruct (stepNear_sound _ Step) as (d & Td & Hd).
    eexists. exists d. split; [reflexivity|].
    cbn [confidence predictionPoint]. fold (confidenceOf (i + 1)).
    split; [exact Down|]. split; [exact Td|]. split; [exact Hd | exact Off].
Qed.

Lemma point_confidence_binary64_witness :
  exists pred,
    getPrediction (env_double (fun _ => 0.5)) (db_double 1 1) "lot-1" 18
    = Returned (Some pred)
    /\ exists p, point pred 17 = Some p /\ (confidence p <? 0) = true.
Proof.
  destruct (point_confidence_binary64 (env_double (fun _ => 0.5))
              (db_double 1 1) "lot-1"%string 18
              (aggregate (env_double (fun _ => 0.5)) lot1_double
                 (getSpacesByLotId (db_double 1 1) "lot-1")))
    as (pred & P & Points); [reflexivity | lia |].
  exists pred. split; [exact P|].
  destruct (Points 17%Z ltac:(lia)) as (p & Np & _ & Checked & _).
  exists p. split; [exact Np|].
  apply (proj2 (proj2 (Checked ltac:(lia)))). lia.
Defined.

(** ** Predicted occupancy and availability *)

Lemma basePrediction64_biased (rate : float) (hour : Z) :
  biased rate hour (basePrediction rate hour).
Proof.
  unfold biased, basePrediction.
  destruct ((9 <=? hour) && (hour <=? 11))%Z eqn:B1.
  { left. split; [lia | reflexivity]. }
  destruct ((14 <=? hour) && (hour <=? 16))%Z eqn:B2.
  { right; left. split; [lia | reflexivity]. }
  destruct ((17 <=? hour) && (hour <=? 19))%Z eqn:B3.
  { right; right; left. split; [lia | reflexivity]. }
  right; right; right.
  split; [lia|]. split; [lia|]. split; [lia | reflexivity].
Qed.

(** The local [predictedOccupancy] of iteration [i] is the unrounded
    occupancy of the biased rate. *)
Lemma rawOccupancy_unrounded (e : Env) (lot : ParkingLot) (i : Z) :
  rawOccupancy e lot i (Z.to_nat (i - 1))
  = unrounded e i
      (basePrediction (occupancyRate lot)
         (getHours (tz e) (mkDate (getTime (now e) + i * 3600000)))).
Proof.
  unfold rawOccupancy, unrounded, clamp, variance, predictionTime.
  replace (getTime (now e) + i * 60 * 60 * 1000)%Z
    with (getTime (now e) + i * 3600000)%Z by ring.
  reflexivity.
Qed.


(** The rounding to one decimal is that of the doubles: at the rate 65.85
    (27 of 41 spaces), in the evening and for the draw 0 the unrounded
    occupancy is the double of 45.85 and the stored one is 45.8. *)
Lemma predictedOccupancy_evening_example :
  exists pred p,
    getPrediction env_evening (db_double 27 14) "lot-1" 1
    = Returned (Some pred)
    /\ point pred 1 = Some p
    /\ currentOccupancy pred = 65.85
    /\ predictedOccupancy p = 45.8.
Proof.
  eexists. eexists.
  split; [evaluate|].
  split; [evaluate|].
  split; evaluate.
Qed.



(** ** Trend *)

Lemma trendOf64_last (u : float) (l : list PredictionDataPoint)
  (p : PredictionDataPoint) :
  nth_error l (List.length l - 1) = Some p ->
  trendOf u l
  = if predictedOccupancy p + 3 <? u then INCREASING
    else if u <? predictedOccupancy p - 3 then DECREASING
    else STABLE.
Proof.
  intro N. unfold trendOf, gt, lt.
  destruct l as [|x l]; [discriminate|].
  rewrite (nth_error_nth _ _ _ N). reflexivity.
Qed.

(** C4, as the claim states it, fails: with the rate 50 and the draws 0.5
    and 0.804 the series is 50.0, 53.0; the second point is INCREASING and
    the difference is 3, not more. *)
Lemma trend_counterexample :
  exists pred p q,
    getPrediction (env_double draws_804) (db_double 1 1) "lot-1" 2
    = Returned (Some pred)
    /\ point pred 1 = Some p
    /\ point pred 2 = Some q
    /\ trend q = INCREASING
    /\ predictedOccupancy q - predictedOccupancy p = 3
    /\ (3 <? predictedOccupancy q - predictedOccupancy p) = false.
Proof.
  eexists. eexists. eexists.
  split; [evaluate|].
  split; [evaluate|].
  split; [evaluate|].
  repeat split; evaluate.
Qed.

(** C4 (amended): in the series generated for a known lot and a horizon h
    of at least one hour, the first point is STABLE; for every i from 2 to
    h, with p the point i - 1, q the point i and u the predicted occupancy
    of iteration i before its rounding to 1 decimal (the clamp to [0,100]
    of the biased rate plus the variance of the draw of the iteration, of
    which q.predictedOccupancy is the rounding), q is INCREASING if and
    only if u > p.predictedOccupancy + 3, DECREASING if and only if it is
    not that and u < p.predictedOccupancy - 3, and STABLE otherwise, the
    sums and the comparisons being those of binary64 arithmetic. *)
Theorem point_trend_binary64 (e : Env) (db : Store) (id : string) (h : Z)
  (lot : ParkingLot) :
  getLotById e db id = Returned (Some lot) -> (1 <= h)%Z ->
  exists pred, getPrediction e db id h = Returned (Some pred)
    /\ (exists p, point pred 1 = Some p /\ trend p = STABLE)
    /\ forall i, (2 <= i <= h)%Z ->
       exists p q base,
         point pred (i - 1) = Some p
         /\ point pred i = Some q
         /\ biased (occupancyRate lot)
              (getHours (tz e) (mkDate (getTime (now e) + i * 3600000)))
              base
         /\ predictedOccupancy q = roundTo1 (unrounded e i base)
         /\ (trend q = INCREASING
             <-> (predictedOccupancy p + 3 <? unrounded e i base) = true)
         /\ (trend q = DECREASING
             <-> (predictedOccupancy p + 3 <? unrounded e i base) = false
                 /\ (unrounded e i base <? predictedOccupancy p - 3) = true)
         /\ (trend q = STABLE
             <-> (predictedOccupancy p + 3 <? unrounded e i base) = false
                 /\ (unrounded e i base <? predictedOccupancy p - 3)
                    = false).
Proof.
  intros L H.
  destruct (getPrediction64_returns e db id h lot L H) as (pred & P & S).
  exists pred. split; [exact P|]. split.
  - unfold point. rewrite S, series64_point by lia.
    eexists. split; reflexivity.
  - intros i Hi. unfold point. rewrite S, !series64_point by lia.
    eexists. eexists. eexists. split; [reflexivity|]. split; [reflexivity|].
    split; [apply basePrediction64_biased|].
    cbn [predictedOccupancy trend predictionPoint].
    rewrite rawOccupancy_unrounded. split; [reflexivity|].
    set (u := unrounded e i _).
    set (p := predictionPoint e lot (i - 1) (Z.to_nat (i - 1 - 1))
                (series e lot (Z.to_nat (i - 1 - 1)))).
    assert (Last : nth_error (series e lot (Z.to_nat (i - 1)))
                     (List.length (series e lot (Z.to_nat (i - 1))) - 1)
                   = Some p).
    { rewrite series64_length.
      replace (Z.to_nat (i - 1) - 1)%nat with (Z.to_nat (i - 1 - 1)) by lia.
      apply series64_point. lia. }
    rewrite (trendOf64_last u _ p Last).
    change (predictedOccupancy p)
      with (Math_round (rawOccupancy e lot (i - 1) (Z.to_nat (i - 1 - 1)) * 10)
            / 10).
    destruct (_ + 3 <? u); [|destruct (u <? _ - 3)];
      repeat split; intros; try discriminate; try reflexivity;
      match goal with H : _ /\ _ |- _ => destruct H; discriminate end.
Qed.

Lemma point_trend_binary64_witness :
  exists pred,
    getPrediction (env_double draws_804) (db_double 1 1) "lot-1" 2
    = Returned (Some pred)
    /\ exists p, point pred 1 = Some p /\ trend p = STABLE.
Proof.
  destruct (point_trend_binary64 (env_double draws_804) (db_double 1 1)
              "lot-1"%string 2
              (aggregate (env_double draws_804) lot1_double
                 (getSpacesByLotId (db_double 1 1) "lot-1")))
    as (pred & P & First & _); [reflexivity | lia |].
  exists pred. split; [exact P | exact First].
Defined.

End Doubles.

(** * Further properties of the service *)

(** ** Occupancy rate of a lot read *)

Lemma Math_round_range (x : Q) (lo hi : Z) :
  inject_Z lo <= x -> x <= inject_Z hi ->
  (lo <= Math_round x <= hi)%Z.
Proof.
  intros L H. unfold Math_round. split.
  - rewrite <- (Qfloor_Z lo). apply Qfloor_resp_le. lra.
  - pose proof (Qfloor_le (x + (1 # 2))) as F.
    assert (G : inject_Z (Qfloor (x + (1 # 2))) < inject_Z (hi + 1)).
    { rewrite inject_Z_plus. change (inject_Z 1) with 1. lra. }
    rewrite <- Zlt_Qlt in G. lia.
Qed.

(** The rate that a read computes lies between 0 and 100 and has two
    decimals. *)
Lemma aggregate_rate_range (e : Env) (lot : ParkingLot)
  (spaces : list ParkingSpace) :
  0 <= occupancyRate (aggregate e lot spaces) <= 100
  /\ exists k : Z, occupancyRate (aggregate e lot spaces) == inject_Z k / 100.
Proof.
  unfold aggregate; cbn [occupancyRate].
  set (total := match List.length spaces with
                | O => totalSpaces lot
                | S n => inject_Z (Z.of_nat (S n))
                end).
  destruct (gt total 0) eqn:G.
  2: { split; [lra|]. exists 0%Z. reflexivity. }
  apply gt_true in G.
  set (occ := inject_Z (Z.of_nat (countStatus occupied spaces))).
  assert (O0 : 0 <= occ).
  { unfold occ. change 0 with (inject_Z 0). rewrite <- Zle_Qle. lia. }
  assert (OT : occ <= total).
  { destruct spaces as [|s spaces].
    - unfold occ. cbn. exact (Qlt_le_weak _ _ G).
    - unfold occ, total. cbn [List.length]. rewrite <- Zle_Qle.
      pose proof (countStatus_le_length occupied (s :: spaces)) as C.
      cbn [List.length] in C. lia. }
  assert (R0 : 0 <= occ / total) by (apply Qle_shift_div_l; lra).
  assert (R1 : occ / total <= 1) by (apply Qle_shift_div_r; lra).
  assert (B : (0 <= Math_round (occ / total * 100 * 100) <= 10000)%Z).
  { apply Math_round_range.
    - change (inject_Z 0) with 0. lra.
    - change (inject_Z 10000) with 10000. lra. }
  set (k := Math_round (occ / total * 100 * 100)) in *.
  split; [|exists k; reflexivity].
  destruct B as [B0 B1]. rewrite Zle_Qle in B0, B1.
  change (inject_Z 0) with 0 in B0. change (inject_Z 10000) with 10000 in B1.
  unfold Qdiv. change (/ 100) with (1 # 100). split; lra.
Qed.

(** X1: every lot that a read serves, from DynamoDB or from the mock data,
    has an occupancyRate between 0 and 100, also when the lot has no space
    record or a static capacity of 0. *)
Theorem lot_read_rate_range (e : Env) (db : Store) (useMockData : bool)
  (scan : Result Store) :
  (forall id agg, getLotById e db id = Some agg ->
     0 <= occupancyRate agg <= 100
     /\ exists k : Z, occupancyRate agg == inject_Z k / 100)
  /\ Forall (fun l => 0 <= occupancyRate l <= 100)
            (snd (getAllLots e useMockData scan)).
Proof.
  split.
  - intros id agg H. unfold getLotById in H.
    destruct (getItem db id) as [lot|]; [|discriminate].
    injection H as <-. apply aggregate_rate_range.
  - assert (M : Forall (fun l => 0 <= occupancyRate l <= 100)
                  (map (touch e) MOCK_LOTS)).
    { cbn. repeat constructor; cbn; try (unfold Qle; simpl; lia). }
    unfold getAllLots. destruct useMockData; [exact M|].
    destruct scan as [db'|err]; [|exact M]. cbn [snd].
    apply Forall_forall. intros l Hl. apply in_map_iff in Hl.
    destruct Hl as (lot & <- & _). apply aggregate_rate_range.
Qed.

Lemma lot_read_rate_range_witness :
  0 <= occupancyRate (aggregate env0 lot3 (getSpacesByLotId db_reserved "lot-3"))
    <= 100.
Proof.
  apply (proj1 (lot_read_rate_range env0 db_reserved false (Returned db_reserved))
           "lot-3"%string).
  reflexivity.
Defined.

(** ** The two reads of a lot *)

Lemma getItem_NoDup (table : list ParkingLot) (spaceTable : list ParkingSpace)
  (lot : ParkingLot) :
  NoDup (map lotId table) -> In lot table ->
  getItem (mkStore table spaceTable) (lotId lot) = Some lot.
Proof.
  unfold getItem. cbn [parkingLotTable].
  induction table as [|l table IH]; intros ND I; [contradiction|].
  cbn [map] in ND. inversion ND as [|? ? NI ND']; subst.
  cbn [find]. destruct I as [->|I].
  - now rewrite String.eqb_refl.
  - destruct (String.eqb (lotId l) (lotId lot)) eqn:E.
    + apply String.eqb_eq in E. exfalso. apply NI. rewrite E.
      apply in_map. exact I.
    + apply IH; assumption.
Qed.

(** X2: when the lot identifiers of the table are distinct, every lot that
    [getAllLots] lists from DynamoDB is the lot that [getLotById] returns
    for its identifier at the same instant, and every lot that [getLotById]
    returns is listed. *)
Theorem getAllLots_getLotById (e : Env) (db : Store) :
  NoDup (map lotId (parkingLotTable db)) ->
  (forall agg, In agg (snd (getAllLots e false (Returned db))) ->
     getLotById e db (lotId agg) = Some agg)
  /\ (forall id agg, getLotById e db id = Some agg ->
        In agg (snd (getAllLots e false (Returned db))) /\ lotId agg = id).
Proof.
  intro ND. destruct db as [table spaceTable]. cbn [parkingLotTable] in ND.
  unfold getAllLots. cbn [snd parkingLotTable]. split.
  - intros agg I. apply in_map_iff in I. destruct I as (lot & <- & I).
    change (lotId (aggregate e lot _)) with (lotId lot).
    unfold getLotById. now rewrite (getItem_NoDup table spaceTable lot ND I).
  - intros id agg H. unfold getLotById in H.
    destruct (getItem (mkStore table spaceTable) id) as [lot|] eqn:G;
      [|discriminate].
    injection H as <-. unfold getItem in G. apply find_some in G.
    cbn [parkingLotTable] in G. destruct G as [I E].
    apply String.eqb_eq in E. subst id. split; [|reflexivity].
    apply in_map_iff. exists lot. split; [reflexivity | exact I].
Qed.

Lemma getAllLots_getLotById_witness :
  getLotById env0 db_half (lotId served3) = Some served3.
Proof.
  assert (ND : NoDup (map lotId (parkingLotTable db_half))).
  { cbn. constructor; [intros [] | constructor]. }
  apply (proj1 (getAllLots_getLotById env0 db_half ND) served3).
  left. vm_compute. reflexivity.
Defined.

(** X3: the switch to the mock data is permanent.  After a call of
    [getAllLots] in which DynamoDB failed, every later call serves the three
    mock lots stamped with its own instant and leaves the flag set,
    whatever the store holds by then. *)
Theorem getAllLots_mock_is_sticky (e e' : Env) (useMockData : bool)
  (err : string) (later : Result Store) :
  let flag := fst (getAllLots e useMockData (Thrown err)) in
  flag = true
  /\ getAllLots e' flag later = (true, map (touch e') MOCK_LOTS)
  /\ map lotId (snd (getAllLots e' flag later))
     = ["lot-1"; "lot-2"; "lot-3"]%string
  /\ Forall (fun l => lastUpdate l = toISOString (now e'))
            (snd (getAllLots e' flag later)).
Proof.
  assert (F : fst (getAllLots e useMockData (Thrown err)) = true)
    by (unfold getAllLots; now destruct useMockData).
  cbv zeta. rewrite F. split; [reflexivity|]. split; [reflexivity|].
  split; [reflexivity|]. cbn. repeat constructor.
Qed.

(** While DynamoDB is down, [GET /lots] answers 200 with the mock lots,
    and [GET /lots/:lotId] and [GET /lots/:lotId/spaces] answer 500 for
    every identifier, those of the mock lots included. *)
Lemma outage_list_and_detail (e : Env) (useMockData : bool) (err : string)
  (id : string) (statusQuery zoneQuery : option string) :
  LotRoutes.res_status (snd (LotRoutes.lotsHandler e useMockData (Thrown err)))
  = 200%Z
  /\ LotRoutes.res_data (snd (LotRoutes.lotsHandler e useMockData (Thrown err)))
     = Some (map (touch e) MOCK_LOTS)
  /\ LotRoutes.res_status (LotRoutes.lotHandler e (Thrown err) id) = 500%Z
  /\ LotRoutes.res_status
       (LotRoutes.spacesHandler e (Thrown err) id statusQuery zoneQuery)
     = 500%Z.
Proof.
  unfold LotRoutes.lotsHandler, getAllLots.
  destruct useMockData; repeat split.
Qed.

(** ** Outcomes of getPrediction *)

Lemma series_empty_iff (e : Env) (lot : ParkingLot) (n : nat) :
  series e lot n = [] <-> n = 0%nat.
Proof.
  split; intro H.
  - rewrite <- (series_length e lot n), H. reflexivity.
  - subst n. reflexivity.
Qed.

(** X5: for an identifier that the store accepts as a key (it is not empty
    and has at most 2048 bytes; the store rejects any other and the call
    throws), [getPrediction] returns [null] exactly when the lot table does
    not hold the identifier; for a known lot it throws exactly when the
    horizon is below 1 (the series is empty and the recommendation reads
    the field of [undefined]) and returns a prediction otherwise. *)
Theorem getPrediction_outcome (e : Env) (db : Store) (id : string) (h : Z) :
  validKey id = true ->
  (getPrediction e db id h = Returned None <-> getItem db id = None)
  /\ ((exists err, getPrediction e db id h = Thrown err)
      <-> getItem db id <> None /\ (h < 1)%Z)
  /\ ((exists pred, getPrediction e db id h = Returned (Some pred))
      <-> getItem db id <> None /\ (1 <= h)%Z).
Proof.
  intros _. destruct (getItem db id) as [item|] eqn:G.
  - assert (L : getLotById e db id
                = Some (aggregate e item (getSpacesByLotId db id)))
      by (unfold getLotById; now rewrite G).
    set (lot := aggregate e item (getSpacesByLotId db id)) in *.
    destruct (Z_lt_le_dec h 1) as [Lt|Ge].
    + assert (T : getPrediction e db id h = Thrown "TypeError").
      { unfold getPrediction. rewrite L.
        replace (Z.to_nat h) with 0%nat by lia. reflexivity. }
      rewrite T. split; [|split].
      * split; discriminate.
      * split; [intros _; split; [discriminate | exact Lt]
               | intros _; eexists; reflexivity].
      * split; [intros [pred P]; discriminate | intros [_ H]; lia].
    + destruct (getPrediction_returns e db id h lot L Ge) as [pred P].
      rewrite P. split; [|split].
      * split; discriminate.
      * split; [intros [err E]; discriminate | intros [_ H]; lia].
      * split; [intros _; split; [discriminate | exact Ge]
               | intros _; eexists; reflexivity].
  - assert (N : getPrediction e db id h = Returned None)
      by (unfold getPrediction, getLotById; now rewrite G).
    rewrite N. split; [|split].
    + split; reflexivity.
    + split; [intros [err E]; discriminate | intros [C _]; congruence].
    + split; [intros [pred P]; discriminate | intros [C _]; congruence].
Qed.

Lemma getPrediction_outcome_witness :
  exists err, getPrediction env0 db_half "lot-3" 0 = Thrown err.
Proof.
  apply (proj2 (proj1 (proj2 (getPrediction_outcome env0 db_half
                                "lot-3"%string 0 eq_refl)))).
  split; [discriminate | lia].
Defined.

(** ** Bounds on the points *)

Lemma rawOccupancy_range (e : Env) (lot : ParkingLot) (i : Z) (k : nat) :
  0 <= rawOccupancy e lot i k <= 100.
Proof.
  unfold rawOccupancy, Math_max, Math_min.
  set (x := basePrediction _ _ + _).
  destruct (Q.max_spec 0 (Qmin 100 x)) as [[M E]|[M E]]; rewrite E;
    [|lra].
  destruct (Q.min_spec 100 x) as [[N F]|[N F]]; rewrite F in M |- *; lra.
Qed.

Lemma Math_round_Z (z : Z) : Math_round (inject_Z z) = z.
Proof.
  pose proof (Math_round_range (inject_Z z) z z) as H.
  assert (E : inject_Z z <= inject_Z z) by apply Qle_refl.
  specialize (H E E). lia.
Qed.

(** X6: every point of a returned prediction has a predictedOccupancy
    between 0 and 100 with one decimal, whatever the rate of the lot and the
    draws; its predictedAvailable is an integer, between 0 and the capacity
    of the lot rounded when that capacity is at least 0, so between 0 and
    the number of space records when the lot has some. *)
Theorem point_bounds (e : Env) (db : Store) (id : string) (h : Z)
  (pred : OccupancyPrediction) (i : Z) (p : PredictionDataPoint) :
  getPrediction e db id h = Returned (Some pred) ->
  point pred i = Some p ->
  exists lot, getLotById e db id = Some lot
    /\ 0 <= predictedOccupancy p <= 100
    /\ (exists k : Z, predictedOccupancy p == inject_Z k / 10)
    /\ (exists n : Z, predictedAvailable p = inject_Z n
          /\ (0 <= totalSpaces lot ->
              (0 <= n <= Math_round (totalSpaces lot))%Z)
          /\ (getSpacesByLotId db id <> [] ->
              (0 <= n <= Z.of_nat (List.length (getSpacesByLotId db id)))%Z)).
Proof.
  intros P N. unfold point in N.
  destruct (getPrediction_point _ _ _ _ _ _ _ P N) as (lot & L & _ & ->).
  exists lot. split; [exact L|].
  cbn [predictedOccupancy predictedAvailable predictionPoint].
  set (u := rawOccupancy e lot _ _).
  pose proof (rawOccupancy_range e lot (Z.of_nat (S (Z.to_nat (i - 1))))
                (Z.to_nat (i - 1))) as [U0 U1].
  fold u in U0, U1.
  assert (B : (0 <= Math_round (u * 10) <= 1000)%Z).
  { apply Math_round_range.
    - change (inject_Z 0) with 0. lra.
    - change (inject_Z 1000) with 1000. lra. }
  split; [|split].
  - destruct B as [B0 B1]. rewrite Zle_Qle in B0, B1.
    change (inject_Z 0) with 0 in B0. change (inject_Z 1000) with 1000 in B1.
    unfold Qdiv. change (/ 10) with (1 # 10). split; lra.
  - eexists. reflexivity.
  - eexists. split; [reflexivity|].
    assert (F0 : 0 <= 1 - u / 100).
    { unfold Qdiv. change (/ 100) with (1 # 100). lra. }
    assert (F1 : 1 - u / 100 <= 1).
    { unfold Qdiv. change (/ 100) with (1 # 100). lra. }
    set (f := 1 - u / 100) in *. set (t := totalSpaces lot) in *.
    assert (R : 0 <= t ->
                (0 <= Math_round (t * f) <= Math_round t)%Z).
    { intro T0.
      assert (X0 : 0 <= t * f) by (apply Qmult_le_0_compat; assumption).
      assert (X1 : t * f <= t) by nra.
      split.
      + unfold Math_round. rewrite <- (Qfloor_Z 0) at 1.
        apply Qfloor_resp_le. change (inject_Z 0) with 0. lra.
      + unfold Math_round. apply Qfloor_resp_le. lra. }
    split; [exact R|]. intro NE.
    assert (T : t = inject_Z (Z.of_nat (List.length (getSpacesByLotId db id)))).
    { unfold getLotById in L. destruct (getItem db id) as [item|];
        [|discriminate].
      injection L as <-. subst t. unfold aggregate. cbn [totalSpaces].
      destruct (getSpacesByLotId db id); [congruence | reflexivity]. }
    rewrite <- (Math_round_Z (Z.of_nat _)), <- T. apply R.
    rewrite T. change 0 with (inject_Z 0). rewrite <- Zle_Qle. lia.
Qed.

Lemma point_bounds_witness :
  exists pred p,
    getPrediction env_866 db_lot1 "lot-1" 1 = Returned (Some pred)
    /\ point pred 1 = Some p
    /\ 0 <= predictedOccupancy p <= 100.
Proof.
  eexists. eexists. split; [evaluate|]. split; [evaluate|].
  edestruct point_bounds
    with (e := env_866) (db := db_lot1) (id := "lot-1"%string) (h := 1%Z)
         (i := 1%Z)
    as (lot & _ & B & _); [evaluate | evaluate | exact B].
Defined.

(** ** The series and the horizon *)

Lemma series_firstn (e : Env) (lot : ParkingLot) (n m : nat) :
  (n <= m)%nat -> firstn n (series e lot m) = series e lot n.
Proof.
  intro H. induction m as [|m IH].
  - replace n with 0%nat by lia. reflexivity.
  - destruct (Nat.eq_dec n (S m)) as [->|NE].
    + rewrite <- (series_length e lot (S m)) at 1. apply firstn_all.
    + rewrite series_S, firstn_app, series_length.
      replace (n - m)%nat with 0%nat by lia.
      cbn [firstn]. rewrite app_nil_r. apply IH. lia.
Qed.

(** X7: for the same instant and the same draws, the prediction for a
    horizon h is the beginning of the prediction for any longer horizon h':
    asking for more hours does not change the earlier points. *)
Theorem getPrediction_prefix (e : Env) (db : Store) (id : string) (h h' : Z)
  (lot : ParkingLot) :
  getLotById e db id = Some lot -> (1 <= h <= h')%Z ->
  exists pred pred',
    getPrediction e db id h = Returned (Some pred)
    /\ getPrediction e db id h' = Returned (Some pred')
    /\ predictions pred = firstn (Z.to_nat h) (predictions pred').
Proof.
  intros L [H1 H2].
  destruct (getPrediction_returns e db id h lot L H1) as [pred P].
  destruct (getPrediction_returns e db id h' lot L) as [pred' P']; [lia|].
  exists pred, pred'. split; [exact P|]. split; [exact P'|].
  destruct (getPrediction_inv _ _ _ _ _ P) as (l1 & L1 & S1 & _).
  destruct (getPrediction_inv _ _ _ _ _ P') as (l2 & L2 & S2 & _).
  assert (l1 = lot) by congruence. assert (l2 = lot) by congruence.
  subst l1 l2. rewrite S1, S2. symmetry. apply series_firstn. lia.
Qed.

Lemma getPrediction_prefix_witness :
  exists pred pred',
    getPrediction env_804 db_half "lot-3" 2 = Returned (Some pred)
    /\ getPrediction env_804 db_half "lot-3" 12 = Returned (Some pred')
    /\ predictions pred = firstn (Z.to_nat 2) (predictions pred').
Proof.
  apply (getPrediction_prefix env_804 db_half "lot-3"%string 2 12
           (aggregate env_804 lot3 (getSpacesByLotId db_half "lot-3"))).
  - reflexivity.
  - lia.
Defined.

(** ** Distance of a predicted point from the current rate *)





(** ** Contextual factors *)

Lemma getHours_range (z : Z) (d : Date) : (0 <= getHours z d < 24)%Z.
Proof. unfold getHours. apply Z.mod_pos_bound. lia. Qed.

Lemma getDay_range (z : Z) (d : Date) : (0 <= getDay z d < 7)%Z.
Proof. unfold getDay. apply Z.mod_pos_bound. lia. Qed.

Lemma getPrediction_factors e db id h pred :
  getPrediction e db id h = Returned (Some pred) ->
  factors pred
  = {| dayOfWeek :=
         nth (Z.to_nat (getDay (tz e) (now e))) dayNames EmptyString;
       timeOfDay :=
         (if (getHours (tz e) (now e) <? 12)%Z then "Morning"
          else if (getHours (tz e) (now e) <? 17)%Z then "Afternoon"
          else "Evening")%string;
       specialEvents := [];
       weather := "Clear" |}
  /\ pred_lotId pred = id
  /\ generatedAt pred = toISOString (now e).
Proof.
  unfold getPrediction. destruct (getLotById e db id) as [lot|]; [|discriminate].
  destruct (generateRecommendation e _ lot) as [text|err]; [|discriminate].
  intro H. injection H as <-. repeat split.
Qed.

(** X9: in a returned prediction dayOfWeek is one of the seven names of
    [dayNames] (the index is never out of range), timeOfDay is Morning
    exactly before 12 o'clock local time, Afternoon from 12 to 16 and
    Evening from 17 on, there are no special events and the weather is
    Clear. *)
Theorem prediction_factors (e : Env) (db : Store) (id : string) (h : Z)
  (pred : OccupancyPrediction) :
  getPrediction e db id h = Returned (Some pred) ->
  let hour := getHours (tz e) (now e) in
  In (dayOfWeek (factors pred)) dayNames
  /\ (timeOfDay (factors pred) = "Morning"%string <-> (hour < 12)%Z)
  /\ (timeOfDay (factors pred) = "Afternoon"%string <-> (12 <= hour < 17)%Z)
  /\ (timeOfDay (factors pred) = "Evening"%string <-> (17 <= hour)%Z)
  /\ specialEvents (factors pred) = []
  /\ weather (factors pred) = "Clear"%string.
Proof.
  intro P. destruct (getPrediction_factors _ _ _ _ _ P) as (F & _ & _).
  rewrite F. cbn [dayOfWeek timeOfDay specialEvents weather]. cbv zeta.
  split.
  - apply nth_In. pose proof (getDay_range (tz e) (now e)) as R.
    change (List.length dayNames) with 7%nat. lia.
  - set (hour := getHours (tz e) (now e)).
    destruct (hour <? 12)%Z eqn:A; [apply Z.ltb_lt in A | apply Z.ltb_ge in A].
    { repeat split; intros; try discriminate; try lia; reflexivity. }
    destruct (hour <? 17)%Z eqn:B; [apply Z.ltb_lt in B | apply Z.ltb_ge in B];
      repeat split; intros; try discriminate; try lia; reflexivity.
Qed.

Lemma prediction_factors_witness :
  exists pred,
    getPrediction env_1234 db_half "lot-3" 1 = Returned (Some pred)
    /\ timeOfDay (factors pred) = "Afternoon"%string
    /\ dayOfWeek (factors pred) = "Thursday"%string.
Proof.
  eexists. split; [evaluate|].
  edestruct prediction_factors
    with (e := env_1234) (db := db_half) (id := "lot-3"%string) (h := 1%Z)
    as (_ & _ & A & _); [evaluate|].
  split; [|reflexivity]. apply A. vm_compute.
  split; [discriminate | reflexivity].
Defined.

(** ** Recommendation of a returned prediction *)

Lemma getPrediction_recommendation_witness :
  exists pred peak,
    getPrediction env_2330 db_busy "lot-3" 2 = Returned (Some pred)
    /\ isFirstPeak (predictions pred) peak
    /\ (85 < predictedOccupancy peak ->
        recommendation pred
        = ("High demand expected around "
           ++ timeStr (getHours (tz env_2330) (parseISO (timestamp peak)))
                      (getMinutes (tz env_2330) (parseISO (timestamp peak)))
           ++ ". Consider arriving earlier for better availability.")%string)
    /\ (predictedOccupancy peak <= 85 ->
        availableSpaces
          (aggregate env_2330 lot3 (getSpacesByLotId db_busy "lot-3")) < 10 ->
        recommendation pred
        = "Limited spaces available now. Consider alternative lots if possible."%string)
    /\ (predictedOccupancy peak <= 85 ->
        10 <= availableSpaces
                (aggregate env_2330 lot3 (getSpacesByLotId db_busy "lot-3")) ->
        recommendation pred
        = "Good availability expected. No concerns at this time."%string).
Proof.
  apply (getPrediction_recommendation env_2330 db_busy "lot-3"%string 2
           (aggregate env_2330 lot3 (getSpacesByLotId db_busy "lot-3"))).
  - reflexivity.
  - lia.
Defined.

Lemma timeStr_clock12_witness : timeStr 13 5 = "1:05 PM"%string.
Proof.
  rewrite (timeStr_clock12 13 5); [reflexivity | lia].
Defined.

Lemma isFirstPeak_above (l : list PredictionDataPoint)
  (peak : PredictionDataPoint) (c : Q) :
  isFirstPeak l peak ->
  (c < predictedOccupancy peak
   <-> exists p, In p l /\ c < predictedOccupancy p).
Proof.
  intros (j & Nj & Max & _). split.
  - intro H. exists peak. split; [|exact H]. eapply nth_error_In. exact Nj.
  - intros (p & I & H). apply In_nth_error in I. destruct I as [k Nk].
    specialize (Max k p Nk). lra.
Qed.

Lemma prefix_false (s1 s2 : string) :
  substring 0 (String.length s1) s2 <> s1 -> String.prefix s1 s2 = false.
Proof.
  intro H. destruct (String.prefix s1 s2) eqn:E; [|reflexivity].
  apply prefix_correct in E. contradiction.
Qed.

Lemma prefix_append (s1 s2 : string) : String.prefix s1 (s1 ++ s2) = true.
Proof.
  induction s1 as [|a s1 IH]; cbn [String.append String.prefix];
    [now destruct s2|].
  destruct (ascii_dec a a); [exact IH | congruence].
Qed.

(** X12: the recommendation of a returned prediction warns of high demand
    exactly when some point of the series is above 85; when no point is, it
    is the text about limited spaces exactly when the lot has fewer than 10
    available spaces at the moment, and the text about good availability
    otherwise. *)
Theorem recommendation_kind (e : Env) (db : Store) (id : string) (h : Z)
  (pred : OccupancyPrediction) :
  getPrediction e db id h = Returned (Some pred) ->
  let high := exists p, In p (predictions pred) /\ 85 < predictedOccupancy p in
  (String.prefix "High demand expected around " (recommendation pred) = true
   <-> high)
  /\ (recommendation pred
      = "Limited spaces available now. Consider alternative lots if possible."%string
      <-> ~ high /\ currentAvailable pred < 10)
  /\ (recommendation pred
      = "Good availability expected. No concerns at this time."%string
      <-> ~ high /\ 10 <= currentAvailable pred).
Proof.
  intro P. cbv zeta.
  destruct (getPrediction_inv _ _ _ _ _ P) as (lot & L & S & _ & _ & A & R).
  assert (NE : predictions pred <> []).
  { intro E. rewrite E in R. discriminate R. }
  destruct (generateRecommendation_cases e _ lot NE)
    as (peak & text & F & R' & C1 & C2 & C3).
  assert (text = recommendation pred) by congruence. subst text.
  pose proof (isFirstPeak_above _ _ 85 F) as Hi. rewrite <- Hi, A.
  destruct (Qlt_le_dec 85 (predictedOccupancy peak)) as [G|G].
  - rewrite (C1 G). split; [|split].
    + split; [intros _; exact G|]. intros _.
      apply prefix_append.
    + split; [discriminate | intros [N _]; contradiction].
    + split; [discriminate | intros [N _]; contradiction].
  - assert (NG : ~ 85 < predictedOccupancy peak) by lra.
    destruct (Qlt_le_dec (availableSpaces lot) 10) as [B|B].
    + rewrite (C2 G B). split; [|split].
      * rewrite prefix_false by (cbn; discriminate).
        split; [discriminate | intro; contradiction].
      * split; [intros _; split; assumption | reflexivity].
      * split; [discriminate | intros [_ X]; lra].
    + rewrite (C3 G B). split; [|split].
      * rewrite prefix_false by (cbn; discriminate).
        split; [discriminate | intro; contradiction].
      * split; [discriminate | intros [_ X]; lra].
      * split; [intros _; split; assumption | reflexivity].
Qed.

Lemma recommendation_kind_witness :
  exists pred,
    getPrediction env0 db_half "lot-3" 3 = Returned (Some pred)
    /\ recommendation pred
       = "Limited spaces available now. Consider alternative lots if possible."%string.
Proof.
  eexists. split; [evaluate|].
  edestruct recommendation_kind
    with (e := env0) (db := db_half) (id := "lot-3"%string) (h := 3%Z)
    as (_ & Lim & _); [evaluate|].
  apply Lim. split.
  - intros (p & I & H). cbn in I.
    destruct I as [<-|[<-|[<-|[]]]]; vm_compute in H; discriminate H.
  - vm_compute. reflexivity.
Defined.

(** ** The hours parameter *)

Lemma parseDigits_stop (rest : string) (acc : option Z) :
  endsNumber rest = true -> parseDigits 10 rest acc = acc.
Proof.
  destruct rest as [|c rest]; [reflexivity|]. cbn [endsNumber parseDigits].
  destruct (digitValue 10 c); [discriminate | reflexivity].
Qed.

Lemma parseDigits_decimal_app (u : Decimal.uint) (rest : string) :
  endsNumber rest = true ->
  forall acc : Z,
    parseDigits 10 (NilEmpty.string_of_uint u ++ rest) (Some acc)
    = Some (decimalValue u acc).
Proof.
  intro Hr.
  induction u; intro acc;
    cbn [NilEmpty.string_of_uint String.append parseDigits decimalValue];
    [apply parseDigits_stop; exact Hr | ..];
    match goal with
    | |- context [digitValue 10 ?c] =>
        let v := eval vm_compute in (digitValue 10 c) in
        change (digitValue 10 c) with v
    end; cbv iota; apply IHu.
Qed.

Lemma parseMagnitude_zero_app (rest : string) :
  endsNumber rest = true -> startsWithX rest = false ->
  parseMagnitude (String "0" rest) = Some 0%Z.
Proof.
  intros E X. destruct rest as [|c rest]; [reflexivity|].
  assert (M : parseMagnitude (String "0" (String c rest))
              = parseDigits 10 (String "0" (String c rest)) None).
  { destruct c as [[] [] [] [] [] [] [] []]; try discriminate X; reflexivity. }
  rewrite M. cbn [parseDigits].
  change (digitValue 10 "0") with (Some 0%Z). cbv iota.
  cbn [endsNumber] in E.
  destruct (digitValue 10 c); [discriminate | reflexivity].
Qed.

Lemma parseMagnitude_decimal_app (u : Decimal.uint) (rest : string) :
  u <> Decimal.Nil -> endsNumber rest = true ->
  (u = Decimal.D0 Decimal.Nil -> startsWithX rest = false) ->
  parseMagnitude (NilEmpty.string_of_uint u ++ rest) = Some (Z.of_uint u).
Proof.
  intros NE Hr Hx. rewrite <- decimalValue_of_uint.
  destruct u as [|u|u|u|u|u|u|u|u|u|u]; [congruence | ..];
    try (unfold parseMagnitude;
         cbn [NilEmpty.string_of_uint String.append parseDigits decimalValue];
         match goal with
         | |- context [digitValue 10 ?c] =>
             let v := eval vm_compute in (digitValue 10 c) in
             change (digitValue 10 c) with v
         end; cbv iota; apply parseDigits_decimal_app; exact Hr).
  destruct u as [|u|u|u|u|u|u|u|u|u|u].
  - cbn [NilEmpty.string_of_uint String.append].
    apply parseMagnitude_zero_app; [exact Hr | apply Hx; reflexivity].
  - exact (parseDigits_decimal_app (Decimal.D0 u) rest Hr (10 * 0 + 0)%Z).
  - exact (parseDigits_decimal_app (Decimal.D1 u) rest Hr (10 * 0 + 0)%Z).
  - exact (parseDigits_decimal_app (Decimal.D2 u) rest Hr (10 * 0 + 0)%Z).
  - exact (parseDigits_decimal_app (Decimal.D3 u) rest Hr (10 * 0 + 0)%Z).
  - exact (parseDigits_decimal_app (Decimal.D4 u) rest Hr (10 * 0 + 0)%Z).
  - exact (parseDigits_decimal_app (Decimal.D5 u) rest Hr (10 * 0 + 0)%Z).
  - exact (parseDigits_decimal_app (Decimal.D6 u) rest Hr (10 * 0 + 0)%Z).
  - exact (parseDigits_decimal_app (Decimal.D7 u) rest Hr (10 * 0 + 0)%Z).
  - exact (parseDigits_decimal_app (Decimal.D8 u) rest Hr (10 * 0 + 0)%Z).
  - exact (parseDigits_decimal_app (Decimal.D9 u) rest Hr (10 * 0 + 0)%Z).
Qed.

Lemma parseInt_unsigned_app (u : Decimal.uint) (rest : string) :
  u <> Decimal.Nil ->
  parseInt (NilEmpty.string_of_uint u ++ rest)
  = parseMagnitude (NilEmpty.string_of_uint u ++ rest).
Proof. intro NE. destruct u; [congruence | reflexivity ..]. Qed.

Lemma to_uint_not_zero (p : positive) :
  Pos.to_uint p <> Decimal.D0 Decimal.Nil.
Proof.
  intro E. pose proof (DecimalPos.Unsigned.of_to p) as H.
  rewrite E in H. discriminate H.
Qed.

(** [parseInt] reads the decimal integer at the start of a text and
    ignores what follows it: for every integer n and every text that is
    empty or starts with a character other than a decimal digit (and, after
    the number 0, other than x), the rendering of n followed by that text
    is read as n. *)
Lemma parseInt_ignores_rest (n : Z) (rest : string) :
  endsNumber rest = true ->
  (n = 0%Z -> startsWithX rest = false) ->
  parseInt (toString n ++ rest) = Some n.
Proof.
  intros Hr Hx. unfold toString. destruct n as [|p|p].
  - cbn [Z.to_int NilZero.string_of_int]. cbn.
    change (parseInt (String "0" rest)) with (parseMagnitude (String "0" rest)).
    apply parseMagnitude_zero_app; [exact Hr | apply Hx; reflexivity].
  - cbn [Z.to_int NilZero.string_of_int]. unfold NilZero.string_of_uint.
    pose proof (to_uint_not_Nil p) as NE.
    pose proof (to_uint_not_zero p) as NZ.
    pose proof (DecimalPos.Unsigned.of_to p) as OT.
    destruct (Pos.to_uint p) eqn:E; [congruence | ..];
      rewrite parseInt_unsigned_app by discriminate;
      (rewrite parseMagnitude_decimal_app;
       [unfold Z.of_uint; rewrite OT; reflexivity
       | discriminate | exact Hr | intro C; congruence]).
  - cbn [Z.to_int NilZero.string_of_int]. unfold NilZero.string_of_uint.
    pose proof (to_uint_not_Nil p) as NE.
    pose proof (to_uint_not_zero p) as NZ.
    pose proof (DecimalPos.Unsigned.of_to p) as OT.
    assert (M : forall s,
                parseInt (String "-" s) = option_map Z.opp (parseMagnitude s))
      by reflexivity.
    destruct (Pos.to_uint p) eqn:E; [congruence | ..];
      cbn [String.append]; rewrite M;
      (rewrite parseMagnitude_decimal_app;
       [unfold Z.of_uint; rewrite OT; reflexivity
       | discriminate | exact Hr | intro C; congruence]).
Qed.

Lemma parseInt_ignores_rest_witness :
  parseInt (toString 12 ++ ".5 hours") = Some 12%Z.
Proof.
  apply (parseInt_ignores_rest 12 ".5 hours"); [reflexivity | discriminate].
Defined.

Lemma predictionHandler_out_of_range_witness :
  predictionHandler env0 db_half "lot-3" (Some (toString 13))
  = ([], mkResponse 400 false (Some "VALIDATION_ERROR"%string) None).
Proof.
  apply (predictionHandler_out_of_range env0 db_half "lot-3"%string 13);
    [discriminate | lia].
Defined.

(** X14: an [hours] parameter that starts with an integer N from 1 to 12
    reaches the engine with the horizon N whatever text follows the number:
    [hours=3.9] asks for 3 hours and [hours=12abc] for 12. *)
Theorem predictionHandler_trailing_text (e : Env) (db : Store) (id : string)
  (n : Z) (rest : string) :
  (1 <= n <= 12)%Z -> endsNumber rest = true ->
  fst (predictionHandler e db id (Some (toString n ++ rest)%string))
  = [GetPrediction id n]
  /\ statusCode (snd (predictionHandler e db id
                        (Some (toString n ++ rest)%string))) <> 400%Z.
Proof.
  intros R Hr. unfold predictionHandler, hoursOf.
  rewrite parseInt_ignores_rest by (try assumption; lia).
  destruct n as [|p|p]; try lia.
  assert (T : ((Z.pos p <? 1) || (Z.pos p >? 12))%Z = false).
  { apply orb_false_iff.
    split; [apply Z.ltb_ge | rewrite Z.gtb_ltb; apply Z.ltb_ge]; lia. }
  rewrite T. split; [reflexivity|]. cbn [snd].
  destruct (getPrediction e db id (Z.pos p)) as [[pred|]|err];
    cbn [statusCode]; discriminate.
Qed.

Lemma predictionHandler_trailing_text_witness :
  fst (predictionHandler env0 db_half "lot-3"
         (Some (toString 3 ++ ".9")%string))
  = [GetPrediction "lot-3" 3].
Proof.
  apply (predictionHandler_trailing_text env0 db_half "lot-3"%string 3 ".9");
    [lia | reflexivity].
Defined.


(** ** The spaces route *)

Lemma statusName_inj (a b : SpaceStatus) :
  LotRoutes.statusName a = LotRoutes.statusName b -> a = b.
Proof. destruct a, b; cbn; intro H; try reflexivity; discriminate H. Qed.

Lemma countStatus_all (st st' : SpaceStatus) (l : list ParkingSpace) :
  (forall s, In s l -> status s = st) ->
  countStatus st' l = if SpaceStatus_eqb st st' then List.length l else 0%nat.
Proof.
  intro A. unfold countStatus. induction l as [|s l IH]; cbn [filter].
  - now destruct (SpaceStatus_eqb st st').
  - rewrite (A s (or_introl eq_refl)).
    assert (IH' := IH (fun x I => A x (or_intror I))).
    destruct (SpaceStatus_eqb st st'); cbn [List.length]; now rewrite IH'.
Qed.

(** X16: for a known lot [GET /lots/:lotId/spaces] answers 200 with exactly
    the space records of the lot that pass the filters in use (a filter is
    in use when its parameter is present and not empty): the status is the
    one asked for, and the space has a number that starts with the zone, so
    a space without a number is never returned under a zone filter.
    totalCount is the number of spaces returned and availableCount +
    occupiedCount is at most totalCount.  For an unknown lot the answer is
    404. *)
Theorem spacesHandler_filters (e : Env) (db : Store) (id : string)
  (statusQuery zoneQuery : option string) :
  (getItem db id = None ->
   LotRoutes.spacesHandler e (Returned db) id statusQuery zoneQuery
   = LotRoutes.failure 404 "LOT_NOT_FOUND")
  /\ (getItem db id <> None ->
      exists d,
        LotRoutes.spacesHandler e (Returned db) id statusQuery zoneQuery
        = LotRoutes.ok d
        /\ LotRoutes.data_lotId d = id
        /\ LotRoutes.totalCount d = List.length (LotRoutes.spaces d)
        /\ (LotRoutes.availableCount d + LotRoutes.occupiedCount d
            <= LotRoutes.totalCount d)%nat
        /\ forall s,
             In s (LotRoutes.spaces d)
             <-> In s (parkingSpaceTable db) /\ space_lotId s = id
                 /\ (LotRoutes.truthy statusQuery = true ->
                     Some (LotRoutes.statusName (status s)) = statusQuery)
                 /\ (LotRoutes.truthy zoneQuery = true ->
                     exists number zone,
                       spaceNumber s = Some number /\ zoneQuery = Some zone
                       /\ String.prefix zone number = true)).
Proof.
  unfold LotRoutes.spacesHandler, getLotById. split.
  - intros ->. reflexivity.
  - intro K. destruct (getItem db id) as [item|]; [|congruence].
    eexists. split; [reflexivity|].
    cbn [LotRoutes.data_lotId LotRoutes.totalCount LotRoutes.spaces
         LotRoutes.availableCount LotRoutes.occupiedCount].
    split; [reflexivity|]. split; [reflexivity|]. split.
    + match goal with |- (countStatus _ ?l + _ <= _)%nat =>
        pose proof (countStatus_partition l) end. lia.
    + intro s. unfold getSpacesByLotId.
      destruct statusQuery as [[|c sq]|]; destruct zoneQuery as [[|c' zq]|];
        cbn [LotRoutes.truthy LotRoutes.queryString];
        rewrite ?filter_In, ?String.eqb_eq; unfold LotRoutes.inZone;
        (split;
         [ intro H; repeat split; try tauto; try discriminate;
           try (intros _; f_equal; tauto);
           try (intros _; destruct (spaceNumber s) as [number|];
                [exists number; eexists; repeat split; tauto
                | destruct H as [_ H]; discriminate H])
         | intros (I & L & S & Z); repeat split; try assumption;
           try (specialize (S eq_refl); congruence);
           try (destruct (Z eq_refl) as (number & zone & -> & E & P);
                injection E as <-; exact P) ]).
Qed.

Lemma spacesHandler_filters_witness :
  exists d,
    LotRoutes.spacesHandler env0 (Returned db_zones) "lot-3"
      (Some "available"%string) (Some "A"%string)
    = LotRoutes.ok d
    /\ map nodeId (LotRoutes.spaces d) = ["n1"%string]
    /\ LotRoutes.totalCount d = 1%nat.
Proof.
  destruct (proj2 (spacesHandler_filters env0 db_zones "lot-3"%string
                     (Some "available"%string) (Some "A"%string)))
    as (d & E & _ & T & _); [discriminate|].
  exists d. split; [exact E|].
  vm_compute in E. injection E as <-. split; reflexivity.
Defined.

(** The data of a 200 answer of the spaces route. *)
Lemma spacesHandler_ok (e : Env) (db : Store) (id : string)
  (statusQuery zoneQuery : option string) (d : LotRoutes.SpacesData) :
  LotRoutes.spacesHandler e (Returned db) id statusQuery zoneQuery
  = LotRoutes.ok d ->
  let byStatus :=
    if LotRoutes.truthy statusQuery
    then filter (fun s => String.eqb (LotRoutes.statusName (status s))
                                     (LotRoutes.queryString statusQuery))
                (getSpacesByLotId db id)
    else getSpacesByLotId db id in
  getItem db id <> None
  /\ LotRoutes.spaces d
     = (if LotRoutes.truthy zoneQuery
        then filter (LotRoutes.inZone (LotRoutes.queryString zoneQuery)) byStatus
        else byStatus)
  /\ LotRoutes.totalCount d = List.length (LotRoutes.spaces d)
  /\ LotRoutes.availableCount d = countStatus available (LotRoutes.spaces d)
  /\ LotRoutes.occupiedCount d = countStatus occupied (LotRoutes.spaces d).
Proof.
  unfold LotRoutes.spacesHandler, getLotById.
  destruct (getItem db id) as [item|]; [|discriminate].
  intro H. injection H as <-. cbv zeta. repeat split. discriminate.
Qed.

(** X17: with a status filter in use, every space returned has the status
    asked for, so availableCount is totalCount under [status=available] and
    0 under any other status, and likewise occupiedCount; a status that is
    none of available, occupied, reserved and offline returns no space. *)
Theorem spacesHandler_status_filter (e : Env) (db : Store) (id : string)
  (c : ascii) (name : string) (zoneQuery : option string)
  (d : LotRoutes.SpacesData) :
  LotRoutes.spacesHandler e (Returned db) id (Some (String c name)) zoneQuery
  = LotRoutes.ok d ->
  (forall st, String c name = LotRoutes.statusName st ->
     (forall s, In s (LotRoutes.spaces d) -> status s = st)
     /\ LotRoutes.availableCount d
        = (if SpaceStatus_eqb st available then LotRoutes.totalCount d
           else 0%nat)
     /\ LotRoutes.occupiedCount d
        = (if SpaceStatus_eqb st occupied then LotRoutes.totalCount d
           else 0%nat))
  /\ ((forall st, String c name <> LotRoutes.statusName st) ->
      LotRoutes.spaces d = [] /\ LotRoutes.totalCount d = 0%nat
      /\ LotRoutes.availableCount d = 0%nat
      /\ LotRoutes.occupiedCount d = 0%nat).
Proof.
  intro H. destruct (spacesHandler_ok _ _ _ _ _ _ H) as (_ & S & T & A & O).
  cbn [LotRoutes.truthy LotRoutes.queryString] in S.
  assert (M : forall s, In s (LotRoutes.spaces d) ->
                LotRoutes.statusName (status s) = String c name).
  { intros s I. rewrite S in I.
    assert (I' : In s (filter
                   (fun s => String.eqb (LotRoutes.statusName (status s))
                                        (String c name))
                   (getSpacesByLotId db id))).
    { destruct (LotRoutes.truthy zoneQuery); [|exact I].
      apply filter_In in I. tauto. }
    apply filter_In in I'. apply String.eqb_eq. tauto. }
  split.
  - intros st E.
    assert (All : forall s, In s (LotRoutes.spaces d) -> status s = st).
    { intros s I. apply statusName_inj. rewrite (M s I). exact E. }
    split; [exact All|]. rewrite A, O, T.
    split; apply countStatus_all; exact All.
  - intro U.
    assert (Nil : LotRoutes.spaces d = []).
    { destruct (LotRoutes.spaces d) as [|s l]; [reflexivity|]. exfalso.
      apply (U (status s)). symmetry. apply M. now left. }
    rewrite A, O, T, Nil. repeat split.
Qed.

Lemma spacesHandler_status_filter_witness :
  exists d,
    LotRoutes.spacesHandler env0 (Returned db_zones) "lot-3"
      (Some "occupied"%string) None
    = LotRoutes.ok d
    /\ LotRoutes.availableCount d = 0%nat
    /\ LotRoutes.occupiedCount d = LotRoutes.totalCount d.
Proof.
  eexists. split; [evaluate|].
  edestruct (fun d => spacesHandler_status_filter env0 db_zones "lot-3"%string
                        "o"%char "ccupied"%string None d)
    as [Known _]; [evaluate|].
  destruct (Known occupied eq_refl) as (_ & A & O).
  split; [exact A | exact O].
Defined.

(** X18: without filters the spaces route and the lot route count the same
    records: for a known lot, totalCount, availableCount and occupiedCount
    of [GET /lots/:lotId/spaces] are the number of space records, the
    availableSpaces and the occupiedSpaces that [GET /lots/:lotId] serves,
    and totalSpaces as well when the lot has space records. *)
Theorem spaces_route_matches_lot_route (e : Env) (db : Store) (id : string)
  (item : ParkingLot) :
  getItem db id = Some item ->
  exists d lot,
    LotRoutes.spacesHandler e (Returned db) id None None = LotRoutes.ok d
    /\ LotRoutes.lotHandler e (Returned db) id = LotRoutes.ok lot
    /\ LotRoutes.spaces d = getSpacesByLotId db id
    /\ availableSpaces lot = inject_Z (Z.of_nat (LotRoutes.availableCount d))
    /\ occupiedSpaces lot = inject_Z (Z.of_nat (LotRoutes.occupiedCount d))
    /\ (LotRoutes.totalCount d <> 0%nat ->
        totalSpaces lot = inject_Z (Z.of_nat (LotRoutes.totalCount d)))
    /\ (LotRoutes.totalCount d = 0%nat ->
        totalSpaces lot = totalSpaces item).
Proof.
  intro G. unfold LotRoutes.spacesHandler, LotRoutes.lotHandler, getLotById.
  rewrite G. cbn [LotRoutes.truthy]. eexists. eexists.
  split; [reflexivity|]. split; [reflexivity|].
  cbn [LotRoutes.spaces LotRoutes.availableCount LotRoutes.occupiedCount
       LotRoutes.totalCount].
  split; [reflexivity|]. unfold aggregate.
  cbn [availableSpaces occupiedSpaces totalSpaces].
  split; [reflexivity|]. split; [reflexivity|].
  destruct (getSpacesByLotId db id) as [|s l]; cbn [List.length]; split;
    intro H; try congruence; try reflexivity; discriminate H.
Qed.

Lemma spaces_route_matches_lot_route_witness :
  exists d lot,
    LotRoutes.spacesHandler env0 (Returned db_zones) "lot-3" None None
    = LotRoutes.ok d
    /\ LotRoutes.lotHandler env0 (Returned db_zones) "lot-3" = LotRoutes.ok lot
    /\ LotRoutes.totalCount d = 4%nat
    /\ totalSpaces lot = 4.
Proof.
  destruct (spaces_route_matches_lot_route env0 db_zones "lot-3"%string lot3
              eq_refl) as (d & lot & S & L & _ & _ & _ & T & _).
  exists d, lot. split; [exact S|]. split; [exact L|].
  vm_compute in S. injection S as <-. split; [reflexivity|].
  rewrite T; [reflexivity | discriminate].
Defined.

(** ** The prediction cache of the client *)

Lemma setKey_same {V : Type} (key : string) (value : V) (dict : Frontend.Dict V) :
  Frontend.setKey key value dict key = Some value.
Proof. unfold Frontend.setKey. now rewrite String.eqb_refl. Qed.

Lemma setKey_other {V : Type} (key k : string) (value : V)
  (dict : Frontend.Dict V) :
  k <> key -> Frontend.setKey key value dict k = dict k.
Proof.
  intro H. unfold Frontend.setKey.
  destruct (String.eqb k key) eqn:E; [|reflexivity].
  apply String.eqb_eq in E. contradiction.
Qed.

Lemma cached_iff (state : Frontend.PredictionsState) (id : string) (d : Date) :
  Frontend.selectIsPredictionCached state id d = true
  <-> exists t, Frontend.cacheExpiry state id = Some (ISO t)
                /\ (getTime d < t)%Z.
Proof.
  unfold Frontend.selectIsPredictionCached.
  destruct (Frontend.cacheExpiry state id) as [[t]|]; cbn [parseISO getTime].
  - rewrite Z.gtb_ltb, Z.ltb_lt. split.
    + intro H. exists t. split; [reflexivity | exact H].
    + intros (t' & E & H). injection E as <-. exact H.
  - split; [discriminate | intros (t & E & _); discriminate E].
Qed.



(** At 01:58 local time of the night in which daylight saving time ends in
    New York the expiry is 02:03 of the new offset: 65 minutes later, and
    the prediction still counts as cached after 64 minutes. *)
Lemma expiry_end_of_daylight_saving :
  fiveMinutesOn newYork2026 before_fall_back
  = (getTime before_fall_back + 65 * 60000)%Z
  /\ Frontend.selectIsPredictionCached
       (Frontend.fetchFulfilled newYork2026 before_fall_back prediction3
          Frontend.predictionsInitialState)
       "lot-3" (mkDate (getTime before_fall_back + 64 * 60000)) = true.
Proof. split; vm_compute; reflexivity. Qed.



Lemma deleteKey_same {V : Type} (key : string) (dict : Frontend.Dict V) :
  Frontend.deleteKey key dict key = None.
Proof. unfold Frontend.deleteKey. now rewrite String.eqb_refl. Qed.

Lemma deleteKey_other {V : Type} (key k : string) (dict : Frontend.Dict V) :
  k <> key -> Frontend.deleteKey key dict k = dict k.
Proof.
  intro H. unfold Frontend.deleteKey.
  destruct (String.eqb k key) eqn:E; [|reflexivity].
  apply String.eqb_eq in E. contradiction.
Qed.

Lemma store_invariant (byLot : Frontend.Dict OccupancyPrediction)
  (expiry : Frontend.Dict ISOString) (loading loading' : bool)
  (err err' : option string) (prediction : OccupancyPrediction)
  (stamp : ISOString) :
  sameKeys (Frontend.mkPredictionsState byLot loading err expiry)
  /\ ownKeys (Frontend.mkPredictionsState byLot loading err expiry) ->
  sameKeys (Frontend.mkPredictionsState
              (Frontend.setKey (pred_lotId prediction) prediction byLot)
              loading' err'
              (Frontend.setKey (pred_lotId prediction) stamp expiry))
  /\ ownKeys (Frontend.mkPredictionsState
                (Frontend.setKey (pred_lotId prediction) prediction byLot)
                loading' err'
                (Frontend.setKey (pred_lotId prediction) stamp expiry)).
Proof.
  unfold sameKeys, ownKeys. cbn [Frontend.byLotId Frontend.cacheExpiry].
  intros [S O]. split.
  - intro id. destruct (string_dec id (pred_lotId prediction)) as [->|NE].
    + rewrite !setKey_same. split; discriminate.
    + rewrite !setKey_other by exact NE. apply S.
  - intros id p. destruct (string_dec id (pred_lotId prediction)) as [->|NE].
    + rewrite setKey_same. intro H. now injection H as <-.
    + rewrite setKey_other by exact NE. apply O.
Qed.

Lemma fetchMultipleFulfilled_invariant (zone : TimeZone) (d : Date)
  (payload : list OccupancyPrediction) :
  forall state,
    sameKeys state /\ ownKeys state ->
    sameKeys (Frontend.fetchMultipleFulfilled zone d payload state)
    /\ ownKeys (Frontend.fetchMultipleFulfilled zone d payload state).
Proof.
  unfold Frontend.fetchMultipleFulfilled. intros state I.
  assert (I0 : sameKeys
                 {| Frontend.byLotId := Frontend.byLotId state;
                    Frontend.pred_loading := false;
                    Frontend.pred_error := Frontend.pred_error state;
                    Frontend.cacheExpiry := Frontend.cacheExpiry state |}
               /\ ownKeys
                    {| Frontend.byLotId := Frontend.byLotId state;
                       Frontend.pred_loading := false;
                       Frontend.pred_error := Frontend.pred_error state;
                       Frontend.cacheExpiry := Frontend.cacheExpiry state |})
    by exact I.
  revert I0. generalize
    {| Frontend.byLotId := Frontend.byLotId state;
       Frontend.pred_loading := false;
       Frontend.pred_error := Frontend.pred_error state;
       Frontend.cacheExpiry := Frontend.cacheExpiry state |}.
  clear I state. induction payload as [|p payload IH]; intros st I;
    cbn [fold_left]; [exact I|].
  apply IH. destruct st as [b l er c]. apply store_invariant with (loading := l)
    (err := er). exact I.
Qed.

(** X20: the two maps of the predictions slice keep the same keys, and every
    prediction stays stored under its own lot identifier: this holds
    initially and every reducer of the slice preserves it.  Under it a
    dispatch of [fetchPrediction] never throws (a cache hit never yields an
    [undefined] payload) and preserves it as well. *)
Theorem predictions_invariant :
  (sameKeys Frontend.predictionsInitialState
   /\ ownKeys Frontend.predictionsInitialState)
  /\ forall state, sameKeys state /\ ownKeys state ->
       (forall zone d p,
          sameKeys (Frontend.updatePrediction zone d p state)
          /\ ownKeys (Frontend.updatePrediction zone d p state))
       /\ (forall zone d p,
             sameKeys (Frontend.fetchFulfilled zone d p state)
             /\ ownKeys (Frontend.fetchFulfilled zone d p state))
       /\ (forall zone d l,
             sameKeys (Frontend.fetchMultipleFulfilled zone d l state)
             /\ ownKeys (Frontend.fetchMultipleFulfilled zone d l state))
       /\ (forall id, sameKeys (Frontend.clearPrediction id state)
                      /\ ownKeys (Frontend.clearPrediction id state))
       /\ (sameKeys (Frontend.clearAllPredictions state)
           /\ ownKeys (Frontend.clearAllPredictions state))
       /\ (sameKeys (Frontend.fetchPending state)
           /\ ownKeys (Frontend.fetchPending state))
       /\ (forall m, sameKeys (Frontend.fetchRejected m state)
                     /\ ownKeys (Frontend.fetchRejected m state))
       /\ (forall zone api d d' id,
             exists state',
               snd (Frontend.dispatchFetchPrediction zone api state d d' id)
               = Returned state'
               /\ sameKeys state' /\ ownKeys state').
Proof.
  split.
  { split; [intro id; split; reflexivity | intros id p H; discriminate H]. }
  intros [b l er c] I.
  assert (Plain : forall l' er',
            sameKeys (Frontend.mkPredictionsState b l' er' c)
            /\ ownKeys (Frontend.mkPredictionsState b l' er' c)).
  { intros l' er'. exact I. }
  split; [intros zone d p;
          apply store_invariant with (loading := l) (err := er); exact I|].
  split; [intros zone d p;
          apply store_invariant with (loading := l) (err := er); exact I|].
  split; [intros zone d ps; apply fetchMultipleFulfilled_invariant; exact I|].
  split.
  { intro id. destruct I as [S O]. unfold sameKeys, ownKeys in *.
    cbn [Frontend.clearPrediction Frontend.byLotId Frontend.cacheExpiry] in *.
    split.
    - intro k. destruct (string_dec k id) as [->|NE].
      + rewrite !deleteKey_same. split; reflexivity.
      + rewrite !deleteKey_other by exact NE. apply S.
    - intros k p. destruct (string_dec k id) as [->|NE].
      + rewrite deleteKey_same. discriminate.
      + rewrite deleteKey_other by exact NE. apply O. }
  split.
  { split; [intro id; split; reflexivity | intros id p H; discriminate H]. }
  split; [apply Plain|]. split; [intro m; apply Plain|].
  intros zone api d d' id. unfold Frontend.dispatchFetchPrediction,
    Frontend.fetchPrediction.
  destruct (Frontend.selectIsPredictionCached
              (Frontend.fetchPending (Frontend.mkPredictionsState b l er c))
              id d) eqn:C.
  - apply cached_iff in C. destruct C as (t & E & _).
    cbn [Frontend.fetchPending Frontend.cacheExpiry Frontend.byLotId] in E |- *.
    destruct (b id) as [p|] eqn:B.
    + cbn [snd]. eexists. split; [reflexivity|].
      apply store_invariant with (loading := true) (err := None).
      apply Plain.
    + exfalso. destruct I as [S _]. specialize (S id).
      cbn [Frontend.byLotId Frontend.cacheExpiry] in S.
      apply S in B. congruence.
  - destruct (api id) as [p|m]; cbn [snd]; eexists;
      (split; [reflexivity|]).
    + apply store_invariant with (loading := true) (err := None).
      apply Plain.
    + apply Plain.
Qed.

Lemma predictions_invariant_witness :
  sameKeys
    (Frontend.clearPrediction "lot-3"
       (Frontend.fetchFulfilled utcZone (mkDate 0) prediction3
          Frontend.predictionsInitialState)).
Proof.
  destruct predictions_invariant as [Initial Step].
  apply (Step _ (proj1 (proj2 (Step _ Initial)) utcZone (mkDate 0)
                   prediction3)).
Defined.



(** ** The lots of the client *)

Lemma includes_In (ids : list string) (id : string) :
  Frontend.includes ids id = true <-> In id ids.
Proof.
  unfold Frontend.includes. rewrite existsb_exists. split.
  - intros (x & I & E). apply String.eqb_eq in E. now subst x.
  - intro I. exists id. split; [exact I | apply String.eqb_refl].
Qed.

Lemma updateLot_listed (lot : ParkingLot) (state : Frontend.LotsState) :
  listed state -> listed (Frontend.updateLot lot state).
Proof.
  intros [ND Has]. unfold listed.
  cbn [Frontend.updateLot Frontend.allIds Frontend.byId].
  destruct (Frontend.includes (Frontend.allIds state) (lotId lot)) eqn:I.
  - split; [exact ND|]. intros id H.
    destruct (string_dec id (lotId lot)) as [->|NE].
    + rewrite setKey_same. discriminate.
    + rewrite setKey_other by exact NE. apply Has. exact H.
  - assert (NI : ~ In (lotId lot) (Frontend.allIds state)).
    { intro H. apply includes_In in H. congruence. }
    split.
    + apply NoDup_app; [exact ND | constructor; [intros [] | constructor] |].
      intros x Hx [<-|[]]. contradiction.
    + intros id H. destruct (string_dec id (lotId lot)) as [->|NE].
      * rewrite setKey_same. discriminate.
      * rewrite setKey_other by exact NE. apply Has.
        apply in_app_or in H. destruct H as [H|[E|[]]]; [exact H|].
        congruence.
Qed.

Lemma fold_updateLot_listed (payload : list ParkingLot) :
  forall state, listed state ->
    listed (fold_left (fun st lot => Frontend.updateLot lot st) payload state).
Proof.
  induction payload as [|lot payload IH]; intros state L; cbn [fold_left];
    [exact L|].
  apply IH, updateLot_listed, L.
Qed.

Lemma fold_refresh_allIds (payload : list ParkingLot) :
  forall state,
    Frontend.allIds
      (fold_left
         (fun st lot =>
            {| Frontend.byId :=
                 Frontend.setKey (lotId lot) lot (Frontend.byId st);
               Frontend.allIds := Frontend.allIds st;
               Frontend.lots_loading := Frontend.lots_loading st;
               Frontend.lots_error := Frontend.lots_error st;
               Frontend.lastFetch := Frontend.lastFetch st |})
         payload state)
    = Frontend.allIds state
    /\ forall id, Frontend.byId state id <> None ->
         Frontend.byId
           (fold_left
              (fun st lot =>
                 {| Frontend.byId :=
                      Frontend.setKey (lotId lot) lot (Frontend.byId st);
                    Frontend.allIds := Frontend.allIds st;
                    Frontend.lots_loading := Frontend.lots_loading st;
                    Frontend.lots_error := Frontend.lots_error st;
                    Frontend.lastFetch := Frontend.lastFetch st |})
              payload state) id <> None.
Proof.
  induction payload as [|lot payload IH]; intro state; cbn [fold_left].
  - split; [reflexivity | intros id H; exact H].
  - destruct (IH {| Frontend.byId :=
                      Frontend.setKey (lotId lot) lot (Frontend.byId state);
                    Frontend.allIds := Frontend.allIds state;
                    Frontend.lots_loading := Frontend.lots_loading state;
                    Frontend.lots_error := Frontend.lots_error state;
                    Frontend.lastFetch := Frontend.lastFetch state |})
      as [A B].
    split; [exact A|]. intros id H. apply B. cbn [Frontend.byId].
    destruct (string_dec id (lotId lot)) as [->|NE].
    + rewrite setKey_same. discriminate.
    + rewrite setKey_other by exact NE. exact H.
Qed.

(** X22: the list of identifiers of the lots slice never holds a duplicate
    and every identifier of it has a lot: this holds initially and is
    preserved by [updateLot], [fetchLotDetails.fulfilled],
    [fetchLots.fulfilled] and [refreshLots.fulfilled].  Under it
    [selectAllLots] returns one lot per listed identifier and no
    [undefined]. *)
Theorem lots_invariant :
  listed Frontend.lotsInitialState
  /\ forall state, listed state ->
       (forall lot, listed (Frontend.updateLot lot state))
       /\ (forall d payload, listed (Frontend.fetchLotsFulfilled d payload state))
       /\ (forall d payload,
             listed (Frontend.refreshLotsFulfilled d payload state))
       /\ List.length (Frontend.selectAllLots state)
          = List.length (Frontend.allIds state)
       /\ Forall (fun entry => entry <> None) (Frontend.selectAllLots state).
Proof.
  split.
  { split; [constructor | intros id []]. }
  intros state L. split; [intro lot; apply updateLot_listed, L|].
  split; [|split; [|split]].
  - intros d payload. unfold Frontend.fetchLotsFulfilled.
    apply fold_updateLot_listed. exact L.
  - intros d payload. unfold Frontend.refreshLotsFulfilled.
    destruct L as [ND Has]. unfold listed.
    match goal with
    | |- context [fold_left ?f payload ?s0] =>
        destruct (fold_refresh_allIds payload s0) as [A B]
    end.
    rewrite A. cbn [Frontend.allIds]. split; [exact ND|].
    intros id H. apply B. cbn [Frontend.byId]. apply Has. exact H.
  - unfold Frontend.selectAllLots. apply length_map.
  - unfold Frontend.selectAllLots. apply Forall_forall. intros entry H.
    apply in_map_iff in H. destruct H as (id & <- & I).
    destruct L as [_ Has]. apply Has. exact I.
Qed.

Lemma lots_invariant_witness :
  listed (Frontend.updateLot served3
            (Frontend.fetchLotsFulfilled (mkDate 0) [served3; served1]
               Frontend.lotsInitialState)).
Proof.
  destruct lots_invariant as [Initial Step].
  apply (Step _ (proj1 (proj2 (Step _ Initial)) (mkDate 0) [served3; served1])).
Defined.

Section FoldById.

Variable step : Frontend.LotsState -> ParkingLot -> Frontend.LotsState.

Hypothesis step_byId : forall st lot,
  Frontend.byId (step st lot)
  = Frontend.setKey (lotId lot) lot (Frontend.byId st).

Lemma fold_byId_other (payload : list ParkingLot) (id : string) :
  forall st,
    (forall l, In l payload -> lotId l <> id) ->
    Frontend.byId (fold_left step payload st) id = Frontend.byId st id.
Proof.
  induction payload as [|a payload IH]; intros st H; cbn [fold_left];
    [reflexivity|].
  rewrite IH by (intros l I; apply H; now right).
  rewrite step_byId. apply setKey_other.
  intro E. apply (H a (or_introl eq_refl)). now symmetry.
Qed.

Lemma fold_byId_in (payload : list ParkingLot) (lot : ParkingLot) :
  forall st,
    NoDup (map lotId payload) -> In lot payload ->
    Frontend.byId (fold_left step payload st) (lotId lot) = Some lot.
Proof.
  induction payload as [|a payload IH]; intros st ND I; [contradiction|].
  cbn [map] in ND. inversion ND as [|? ? NI ND']; subst.
  cbn [fold_left]. destruct I as [->|I].
  - rewrite fold_byId_other.
    + rewrite step_byId. apply setKey_same.
    + intros l Il E. apply NI. rewrite <- E. now apply in_map.
  - apply IH; assumption.
Qed.

End FoldById.

Lemma fold_updateLot_allIds (payload : list ParkingLot) :
  forall st,
    NoDup (map lotId payload) ->
    (forall l, In l payload -> ~ In (lotId l) (Frontend.allIds st)) ->
    Frontend.allIds (fold_left (fun st lot => Frontend.updateLot lot st)
                       payload st)
    = Frontend.allIds st ++ map lotId payload.
Proof.
  induction payload as [|a payload IH]; intros st ND Fresh;
    cbn [fold_left map]; [now rewrite app_nil_r|].
  cbn [map] in ND. inversion ND as [|? ? NI ND']; subst.
  assert (I : Frontend.includes (Frontend.allIds st) (lotId a) = false).
  { destruct (Frontend.includes (Frontend.allIds st) (lotId a)) eqn:E;
      [|reflexivity].
    apply includes_In in E. exfalso.
    exact (Fresh a (or_introl eq_refl) E). }
  rewrite IH.
  - cbn [Frontend.updateLot Frontend.allIds]. rewrite I, <- app_assoc.
    reflexivity.
  - exact ND'.
  - intros l Il. cbn [Frontend.updateLot Frontend.allIds]. rewrite I.
    intro H. apply in_app_or in H. destruct H as [H|[E|[]]].
    + exact (Fresh l (or_intror Il) H).
    + apply NI. rewrite E. now apply in_map.
Qed.

Lemma fold_updateLot_lastFetch (payload : list ParkingLot) :
  forall st,
    Frontend.lastFetch (fold_left (fun st lot => Frontend.updateLot lot st)
                          payload st)
    = Frontend.lastFetch st.
Proof.
  induction payload as [|a payload IH]; intro st; cbn [fold_left];
    [reflexivity|].
  now rewrite IH.
Qed.

(** X23: [fetchLots.fulfilled] normalises a list of lots with distinct
    identifiers without loss: in any state every lot of the payload becomes
    the lot selected for its identifier, and from the initial state
    [selectAllLots] returns the payload, in its order. *)
Theorem fetchLots_round_trip (d : Date) (payload : list ParkingLot)
  (state : Frontend.LotsState) :
  NoDup (map lotId payload) ->
  (forall lot, In lot payload ->
     Frontend.selectLotById (Frontend.fetchLotsFulfilled d payload state)
       (lotId lot) = Some lot)
  /\ Frontend.selectAllLots
       (Frontend.fetchLotsFulfilled d payload Frontend.lotsInitialState)
     = map Some payload
  /\ Frontend.lastFetch (Frontend.fetchLotsFulfilled d payload state)
     = Some (toISOString d).
Proof.
  intro ND.
  assert (B : forall st lot, In lot payload ->
                Frontend.byId
                  (fold_left (fun st lot => Frontend.updateLot lot st)
                     payload st) (lotId lot) = Some lot).
  { intros st lot I.
    apply (fold_byId_in (fun st lot => Frontend.updateLot lot st)); auto. }
  split; [|split].
  - intros lot I. unfold Frontend.selectLotById, Frontend.fetchLotsFulfilled.
    apply B, I.
  - unfold Frontend.selectAllLots, Frontend.fetchLotsFulfilled.
    rewrite fold_updateLot_allIds; [|exact ND | intros l _ []].
    cbn [Frontend.allIds Frontend.lotsInitialState app].
    rewrite map_map. apply map_ext_in. intros lot I. apply B, I.
  - unfold Frontend.fetchLotsFulfilled. now rewrite fold_updateLot_lastFetch.
Qed.

Lemma fetchLots_round_trip_witness :
  Frontend.selectAllLots
    (Frontend.fetchLotsFulfilled (mkDate 0) [served3; served1]
       Frontend.lotsInitialState)
  = [Some served3; Some served1].
Proof.
  apply (fetchLots_round_trip (mkDate 0) [served3; served1]
           Frontend.lotsInitialState).
  cbn. constructor; [intros [H|[]]; discriminate H|].
  constructor; [intros [] | constructor].
Defined.

(** X24: [refreshLots.fulfilled] stores the lots of the payload but never
    extends the list of identifiers: a lot that the client sees for the
    first time in a refresh is selected by its identifier and is missing
    from [selectAllLots]; from the initial state [selectAllLots] stays
    empty whatever the payload. *)
Theorem refreshLots_does_not_list (d : Date) (payload : list ParkingLot)
  (state : Frontend.LotsState) :
  NoDup (map lotId payload) ->
  Frontend.allIds (Frontend.refreshLotsFulfilled d payload state)
  = Frontend.allIds state
  /\ (forall lot, In lot payload ->
        Frontend.selectLotById (Frontend.refreshLotsFulfilled d payload state)
          (lotId lot) = Some lot)
  /\ (forall lot, In lot payload -> ~ In (lotId lot) (Frontend.allIds state) ->
        ~ In (lotId lot)
            (Frontend.allIds (Frontend.refreshLotsFulfilled d payload state)))
  /\ Frontend.selectAllLots
       (Frontend.refreshLotsFulfilled d payload Frontend.lotsInitialState)
     = [].
Proof.
  intro ND. unfold Frontend.refreshLotsFulfilled, Frontend.selectLotById,
    Frontend.selectAllLots.
  assert (A : forall s0,
            Frontend.allIds
              (fold_left
                 (fun st lot =>
                    {| Frontend.byId :=
                         Frontend.setKey (lotId lot) lot (Frontend.byId st);
                       Frontend.allIds := Frontend.allIds st;
                       Frontend.lots_loading := Frontend.lots_loading st;
                       Frontend.lots_error := Frontend.lots_error st;
                       Frontend.lastFetch := Frontend.lastFetch st |})
                 payload s0)
            = Frontend.allIds s0).
  { intro s0. apply fold_refresh_allIds. }
  split; [rewrite A; reflexivity|]. split; [|split].
  - intros lot I.
    apply (fold_byId_in
             (fun st lot =>
                {| Frontend.byId :=
                     Frontend.setKey (lotId lot) lot (Frontend.byId st);
                   Frontend.allIds := Frontend.allIds st;
                   Frontend.lots_loading := Frontend.lots_loading st;
                   Frontend.lots_error := Frontend.lots_error st;
                   Frontend.lastFetch := Frontend.lastFetch st |}));
      auto.
  - intros lot _ NI. rewrite A. exact NI.
  - rewrite A. reflexivity.
Qed.

Lemma refreshLots_does_not_list_witness :
  Frontend.selectLotById
    (Frontend.refreshLotsFulfilled (mkDate 0) [served3; served1]
       Frontend.lotsInitialState) "lot-1"
  = Some served1
  /\ Frontend.selectAllLots
       (Frontend.refreshLotsFulfilled (mkDate 0) [served3; served1]
          Frontend.lotsInitialState)
     = [].
Proof.
  destruct (refreshLots_does_not_list (mkDate 0) [served3; served1]
              Frontend.lotsInitialState) as (_ & Sel & _ & All).
  - cbn. constructor; [intros [H|[]]; discriminate H|].
    constructor; [intros [] | constructor].
  - split; [|exact All]. apply (Sel served1). right. now left.
Defined.

(** ** The client against the prediction route *)




